(** * LeverX_hw2: the student/room combination service, its models, loader,
    exporters and the command line controller, embedded in Rocq.

    The Python program joins a list of student records with a list of room
    records ([RoomStudentService.combine_data]), and serialises the result
    as JSON or XML.  Records are the dictionaries [json.load] produces, so a
    field can hold any JSON value.  The embedding keeps that: a Python value
    is a [value], a raised exception is the [Raise] branch of [result].

    Scope of the model.
    - Strings are byte strings; the functions that look at characters
      ([lower], [repr], the XML character check) are modelled on ASCII text.
    - JSON numbers are integers; floating point numbers are left out.
    - The top-level [isinstance(x, list)] guards are discharged by typing:
      every function that receives "a list of records" takes a
      [list value].
    - Logging calls are dropped (they have no effect on results).
    - Operating-system failures of [mkdir] and [open] are not modelled: an
      export yields the list of I/O actions it issues.
    - Loading reads a [file_system], which tells for a path whether a file
      is there and what [json.load] makes of it.
    - Command line parsing (argparse) is left out: a run starts from the
      parsed arguments. *)

From stdpp Require Import base option list gmap strings pretty.
From Stdlib Require Import ZArith Lia Permutation Ascii.

Set Warnings "-register-all,-clear-no-such-hyp".

(** ** Python values *)

(** What [json.load] can return (floats apart).  A [dict] keeps its items in
    insertion order, as Python does; its keys are strings. *)
Inductive value : Type :=
  | VNone
  | VBool (b : bool)
  | VInt (z : Z)
  | VStr (s : string)
  | VList (items : list value)
  | VDict (items : list (string * value)).

(** [type(v).__name__], as it shows up in interpreter error messages. *)
Definition type_name (v : value) : string :=
  match v with
  | VNone => "NoneType"
  | VBool _ => "bool"
  | VInt _ => "int"
  | VStr _ => "str"
  | VList _ => "list"
  | VDict _ => "dict"
  end.

(** [v is not None] *)
Definition is_not_None (v : value) : bool :=
  match v with VNone => false | _ => true end.

(** ** Exceptions (exceptions/custom_exceptions.py and the built-in ones the
    code can raise) *)

Inductive exn : Type :=
  | DataLoadError (message : string) (file_path : option string)
  | DataExportError (message : string) (output_path : option string)
  | ValidationError (message : string)
  | UnsupportedFormatError (format_name : string) (supported_formats : list string)
  | TypeError (message : string)
  | AttributeError (message : string)
  | ExpatError (message : string).

(** [', '.join(l)] *)
Fixpoint join (sep : string) (l : list string) : string :=
  match l with
  | [] => ""
  | [x] => x
  | x :: rest => x +:+ sep +:+ join sep rest
  end.

(** [str(e)]: the message handed to [Exception.__init__]. *)
Definition str_exn (e : exn) : string :=
  match e with
  | DataLoadError m _ => m
  | DataExportError m _ => m
  | ValidationError m => m
  | UnsupportedFormatError n fs =>
      "Unsupported format '" +:+ n +:+ "'. Supported formats: " +:+ join ", " fs
  | TypeError m => m
  | AttributeError m => m
  | ExpatError m => m
  end.


(** ** The error monad: a call returns or raises *)

Inductive result (A : Type) : Type :=
  | Ok (a : A)
  | Raise (e : exn).
Arguments Ok {A} a.
Arguments Raise {A} e.

#[global] Instance result_ret : MRet result := λ A a, Ok a.
#[global] Instance result_bind : MBind result := λ A B f m,
  match m with
  | Ok a => f a
  | Raise e => Raise e
  end.

(** [try: m  except Exception as e: raise (h e)]  *)
Definition try_except {A} (m : result A) (h : exn → exn) : result A :=
  match m with
  | Ok a => Ok a
  | Raise e => Raise (h e)
  end.

(** A [for] loop with an accumulator whose body may raise. *)
Fixpoint for_each {A S} (body : S → A → result S) (l : list A) (s : S) : result S :=
  match l with
  | [] => Ok s
  | x :: rest => s' ← body s x; for_each body rest s'
  end.

(** A list comprehension whose element expression may raise. *)
Fixpoint map_result {A B} (f : A → result B) (l : list A) : result (list B) :=
  match l with
  | [] => Ok []
  | x :: rest => y ← f x; ys ← map_result f rest; Ok (y :: ys)
  end.

(** ** Dictionaries with string keys *)

Module Dict.
Definition t (V : Type) : Type := list (string * V).

(** [d.get(k)] as an option ([None] when the key is missing). *)
Fixpoint get {V} (k : string) (d : t V) : option V :=
  match d with
  | [] => None
  | (k', v) :: rest => if decide (k = k') then Some v else get k rest
  end.

(** [k in d] *)
Definition mem {V} (k : string) (d : t V) : bool :=
  match get k d with Some _ => true | None => false end.

(** [d[k] = v]: overwrite in place, or append a new item at the end. *)
Fixpoint set {V} (k : string) (v : V) (d : t V) : t V :=
  match d with
  | [] => [(k, v)]
  | (k', v') :: rest =>
      if decide (k = k') then (k', v) :: rest else (k', v') :: set k v rest
  end.

(** [del d[k]] (no effect when the key is missing). *)
Fixpoint remove {V} (k : string) (d : t V) : t V :=
  match d with
  | [] => []
  | (k', v') :: rest =>
      if decide (k = k') then remove k rest else (k', v') :: remove k rest
  end.

(** [list(d.keys())] *)
Definition keys {V} (d : t V) : list string := d.*1.
End Dict.

(** [record.get(k, default)].  A value that is not a dictionary has no
    method [get]. *)
Definition py_get (record : value) (k : string) (dflt : value) : result value :=
  match record with
  | VDict d => Ok (default dflt (Dict.get k d))
  | v => Raise (AttributeError ("'" +:+ type_name v +:+ "' object has no attribute 'get'"))
  end.

(** [isinstance(record, dict)] *)
Definition is_dict (record : value) : bool :=
  match record with VDict _ => true | _ => false end.

(** [k in record], for a record that is a dictionary. *)
Definition has_key (k : string) (record : value) : bool :=
  match record with VDict d => Dict.mem k d | _ => false end.

(** ** Hashable values: the keys of [dict] and the elements of [set]

    Python compares and hashes [True] as [1] and [False] as [0]; lists and
    dictionaries cannot be hashed.  A [pykey] is a hashable value up to
    Python's [==]. *)
Inductive pykey : Type :=
  | KNone
  | KInt (z : Z)
  | KStr (s : string).

#[global] Instance pykey_eq_dec : EqDecision pykey.
Proof. solve_decision. Defined.

Definition pykey_encode (k : pykey) : option (Z + string) :=
  match k with
  | KNone => None
  | KInt z => Some (inl z)
  | KStr s => Some (inr s)
  end.

Definition pykey_decode (x : option (Z + string)) : pykey :=
  match x with
  | None => KNone
  | Some (inl z) => KInt z
  | Some (inr s) => KStr s
  end.

#[global] Instance pykey_countable : Countable pykey.
Proof.
  apply (inj_countable' pykey_encode pykey_decode).
  intros []; reflexivity.
Defined.

(** [hash(v)]: the key [v] stands for, or the [TypeError] of an unhashable
    value. *)
Definition hash_key (v : value) : result pykey :=
  match v with
  | VNone => Ok KNone
  | VBool b => Ok (KInt (if b then 1 else 0)%Z)
  | VInt z => Ok (KInt z)
  | VStr s => Ok (KStr s)
  | v => Raise (TypeError ("unhashable type: '" +:+ type_name v +:+ "'"))
  end.

(** [len(set(l))]: the elements are hashed from left to right. *)
Definition len_set (l : list value) : result nat :=
  keys ← map_result hash_key l;
  Ok (size (list_to_set keys : gset pykey)).

(** ** Strings *)

(** [s.lower()] on ASCII text. *)
Definition lower_ascii (a : ascii) : ascii :=
  let n := nat_of_ascii a in
  if (65 <=? n) && (n <=? 90) then ascii_of_nat (n + 32) else a.

Fixpoint lower (s : string) : string :=
  match s with
  | EmptyString => EmptyString
  | String a rest => String (lower_ascii a) (lower rest)
  end.

(** [s.replace(old, new)] for a one-character [old]. *)
Fixpoint replace (old : ascii) (new : string) (s : string) : string :=
  match s with
  | EmptyString => EmptyString
  | String a rest =>
      if decide (a = old) then new +:+ replace old new rest
      else String a (replace old new rest)
  end.

(** [c in s] *)
Fixpoint contains (c : ascii) (s : string) : bool :=
  match s with
  | EmptyString => false
  | String a rest => bool_decide (a = c) || contains c rest
  end.

(** [str(i)] for an index or a count. *)
Definition str_nat (n : nat) : string := pretty n.

(** [str(z)] for an integer. *)
Definition str_int (z : Z) : string := pretty z.

Definition dquote : ascii := "034"%char.
Definition squote : ascii := "039"%char.
Definition backslash : ascii := "092"%char.
Definition newline : ascii := "010"%char.

Definition hex_digit (n : nat) : string :=
  match String.get n "0123456789abcdef" with
  | Some c => String c EmptyString
  | None => "0"
  end.

(** One character of [repr(s)], inside the quotes [q]. *)
Definition repr_char (q : ascii) (a : ascii) : string :=
  let n := nat_of_ascii a in
  if decide (a = backslash) then String backslash (String backslash EmptyString)
  else if decide (a = q) then String backslash (String q EmptyString)
  else if n =? 9 then String backslash "t"
  else if n =? 10 then String backslash "n"
  else if n =? 13 then String backslash "r"
  else if (n <? 32) || (n =? 127) then
    String backslash "x" +:+ hex_digit (n / 16) +:+ hex_digit (n mod 16)
  else String a EmptyString.

Fixpoint repr_chars (q : ascii) (s : string) : string :=
  match s with
  | EmptyString => EmptyString
  | String a rest => repr_char q a +:+ repr_chars q rest
  end.

(** [repr(s)] of a string: single quotes, unless the text has a single
    quote and no double quote. *)
Definition repr_str (s : string) : string :=
  let q := if contains squote s && negb (contains dquote s) then dquote else squote in
  String q (repr_chars q s) +:+ String q EmptyString.

(** [repr(v)] *)
Fixpoint repr (v : value) : string :=
  match v with
  | VNone => "None"
  | VBool true => "True"
  | VBool false => "False"
  | VInt z => str_int z
  | VStr s => repr_str s
  | VList items => "[" +:+ join ", " (map repr items) +:+ "]"
  | VDict items =>
      "{" +:+ join ", " (map (λ kv, repr_str kv.1 +:+ ": " +:+ repr kv.2) items) +:+ "}"
  end.

(** [str(v)] *)
Definition str (v : value) : string :=
  match v with
  | VStr s => s
  | v => repr v
  end.

(** [for x in v]: the items a [for] loop visits.  Iterating a dictionary
    visits its keys, iterating a string its characters. *)
Fixpoint chars (s : string) : list value :=
  match s with
  | EmptyString => []
  | String a rest => VStr (String a EmptyString) :: chars rest
  end.

Definition py_iter (v : value) : result (list value) :=
  match v with
  | VList items => Ok items
  | VDict items => Ok (VStr <$> items.*1)
  | VStr s => Ok (chars s)
  | v => Raise (TypeError ("'" +:+ type_name v +:+ "' object is not iterable"))
  end.

(** [c.isspace()] on ASCII text: tab, line feed, vertical tab, form feed,
    carriage return, the separators U+001C to U+001F and the space. *)
Definition is_space (a : ascii) : bool :=
  let n := nat_of_ascii a in
  ((9 <=? n) && (n <=? 13)) || ((28 <=? n) && (n <=? 32)).

(** [s.lstrip()] *)
Fixpoint lstrip (s : string) : string :=
  match s with
  | EmptyString => EmptyString
  | String a rest => if is_space a then lstrip rest else s
  end.

(** [s.rstrip()] *)
Fixpoint rstrip (s : string) : string :=
  match s with
  | EmptyString => EmptyString
  | String a rest =>
      match rstrip rest with
      | EmptyString => if is_space a then EmptyString else String a EmptyString
      | rest' => String a rest'
      end
  end.

(** [s.strip()] *)
Definition strip (s : string) : string := rstrip (lstrip s).

(** * utils/validation.py *)

(** The loop shared by [validate_students_data] and [validate_rooms_data]:
    [for i, record in enumerate(records)], counting from [i]. *)
Fixpoint validate_records (label : string) (i : nat) (records : list value) : result () :=
  match records with
  | [] => Ok ()
  | record :: rest =>
      if negb (is_dict record) then
        Raise (ValidationError (label +:+ " at index " +:+ str_nat i +:+ " must be a dictionary"))
      else if negb (has_key "id" record) then
        Raise (ValidationError (label +:+ " at index " +:+ str_nat i +:+ " missing required 'id' field"))
      else if negb (has_key "name" record) then
        Raise (ValidationError (label +:+ " at index " +:+ str_nat i +:+ " missing required 'name' field"))
      else validate_records label (S i) rest
  end.

Definition validate_students_data (students : list value) : result () :=
  validate_records "Student" 0 students.

Definition validate_rooms_data (rooms : list value) : result () :=
  validate_records "Room" 0 rooms.

(** [isinstance(v, int)]: a Python [bool] is an [int]. *)
Definition is_int (v : value) : bool :=
  match v with VInt _ | VBool _ => true | _ => false end.

(** The number an [int] stands for in a comparison: [True] is 1 and
    [False] is 0. *)
Definition int_of (v : value) : Z :=
  match v with
  | VInt z => z
  | VBool b => Z.b2z b
  | _ => 0
  end.

Definition validate_positive_integer (v : value) (field_name : string) : result () :=
  if negb (is_int v) || (int_of v <=? 0)%Z then
    Raise (ValidationError (field_name +:+ " must be a positive integer, got: " +:+ str v))
  else Ok ().

(** [not isinstance(v, str) or not v.strip()]: the empty string is the one
    string that counts as false. *)
Definition validate_non_empty_string (v : value) (field_name : string) : result () :=
  let complain :=
    Raise (ValidationError (field_name +:+ " must be a non-empty string, got: " +:+ str v)) in
  match v with
  | VStr s => if decide (strip s = "") then complain else Ok ()
  | _ => complain
  end.

Definition validate_file_path (file_path : string) : result () :=
  if decide (strip file_path = "") then
    Raise (ValidationError "File path must be a non-empty string")
  else Ok ().

(** [validate_students_data] and [validate_rooms_data] on what [json.load]
    returned, which need not be a list: the [isinstance(x, list)] guard,
    then the loop above. *)
Definition validate_students_json (students : value) : result () :=
  match students with
  | VList records => validate_students_data records
  | _ => Raise (ValidationError "Students data must be a list")
  end.

Definition validate_rooms_json (rooms : value) : result () :=
  match rooms with
  | VList records => validate_rooms_data records
  | _ => Raise (ValidationError "Rooms data must be a list")
  end.

(** * models/combined_room.py *)

Module CombinedRoom.
Record t : Type := mk { id : value; name : value; students : list value }.

Definition to_dict (self : t) : value :=
  VDict [("id", id self); ("name", name self); ("students", VList (students self))].

(** [self.students.append({'id': student_id, 'name': student_name})]: the
    room after the call. *)
Definition add_student (self : t) (student_id student_name : value) : t :=
  mk (id self) (name self)
     (students self ++ [VDict [("id", student_id); ("name", student_name)]]).

Definition get_student_count (self : t) : nat := length (students self).
End CombinedRoom.

(** * models/room.py

    A dataclass stores whatever it is given; [__post_init__] then checks
    the fields, so the fields are values. *)

Module Room.
Record t : Type := mk { id : value; name : value }.

Definition __post_init__ (self : t) : result () :=
  validate_positive_integer (id self) "Room ID";;
  validate_non_empty_string (name self) "Room name".

(** [Room(id, name)]: the generated [__init__] stores the fields and calls
    [__post_init__]. *)
Definition new (id name : value) : result t :=
  let self := mk id name in
  __post_init__ self;; Ok self.

Definition to_dict (self : t) : value :=
  VDict [("id", id self); ("name", name self)].

Definition from_dict (data : value) : result t :=
  id ← py_get data "id" VNone;
  name ← py_get data "name" (VStr "");
  new id name.
End Room.

(** * models/student.py *)

Module Student.
Record t : Type := mk { id : value; name : value; room : value }.

Definition __post_init__ (self : t) : result () :=
  validate_positive_integer (id self) "Student ID";;
  validate_non_empty_string (name self) "Student name";;
  if is_not_None (room self) then validate_positive_integer (room self) "Room ID"
  else Ok ().

(** [Student(id, name, room)] *)
Definition new (id name room : value) : result t :=
  let self := mk id name room in
  __post_init__ self;; Ok self.

Definition to_dict (self : t) : value :=
  VDict [("id", id self); ("name", name self); ("room", room self)].

Definition from_dict (data : value) : result t :=
  id ← py_get data "id" VNone;
  name ← py_get data "name" (VStr "");
  room ← py_get data "room" VNone;
  new id name room.
End Student.

(** * services/room_student_service.py *)

(** [[record.get('id') for record in records if record.get('id') is not None]] *)
Definition non_null_ids (records : list value) : result (list value) :=
  ids ← map_result (λ record, py_get record "id" VNone) records;
  Ok (filter (λ v, is_not_None v) ids).

Definition _validate_business_rules (students rooms : list value) : result () :=
  room_ids ← non_null_ids rooms;
  n ← len_set room_ids;
  if negb (length room_ids =? n) then
    Raise (ValidationError "Duplicate room IDs found")
  else
    student_ids ← non_null_ids students;
    n ← len_set student_ids;
    if negb (length student_ids =? n) then
      Raise (ValidationError "Duplicate student IDs found")
    else Ok ().

(** [except ValidationError: raise] lets a validation error through as it
    is; any other exception is wrapped. *)
Definition validate_input_data (students rooms : list value) : result bool :=
  try_except
    (validate_students_data students;;
     validate_rooms_data rooms;;
     _validate_business_rules students rooms;;
     Ok true)
    (λ e, match e with
          | ValidationError _ => e
          | _ => ValidationError ("Input validation failed: " +:+ str_exn e)
          end).

(** One turn of the loop of [_build_room_lookup]. *)
Definition add_room (room_lookup : gmap pykey value) (room : value)
    : result (gmap pykey value) :=
  room_id ← py_get room "id" VNone;
  if is_not_None room_id then
    k ← hash_key room_id;
    Ok (<[k := room]> room_lookup)
  else Ok room_lookup.

Definition _build_room_lookup (rooms : list value) : result (gmap pykey value) :=
  for_each add_room rooms ∅.

(** One turn of the loop of [_group_students_by_room]. *)
Definition group_student (room_lookup : gmap pykey value)
    (acc : gmap pykey (list value) * list value) (student : value)
    : result (gmap pykey (list value) * list value) :=
  let '(students_by_room, unassigned_students) := acc in
  room_id ← py_get student "room" VNone;
  sid ← py_get student "id" VNone;
  sname ← py_get student "name" (VStr "Unknown");
  let student_data := VDict [("id", sid); ("name", sname)] in
  (* [room_id is not None and room_id in room_lookup] *)
  target ← (if is_not_None room_id then
              k ← hash_key room_id;
              Ok (if room_lookup !! k is Some _ then Some k else None)
            else Ok None);
  match target with
  | Some k =>
      let students_by_room :=
        if students_by_room !! k is None then <[k := []]> students_by_room
        else students_by_room in
      Ok (alter (λ l, l ++ [student_data]) k students_by_room, unassigned_students)
  | None => Ok (students_by_room, unassigned_students ++ [student_data])
  end.

Definition _group_students_by_room (students : list value) (room_lookup : gmap pykey value)
    : result (gmap pykey (list value) * list value) :=
  for_each (group_student room_lookup) students (∅, []).

Definition _build_combined_rooms (rooms : list value)
    (students_by_room : gmap pykey (list value)) : result (list value) :=
  map_result
    (λ room,
       room_id ← py_get room "id" VNone;
       name ← py_get room "name" (VStr "Unknown Room");
       k ← hash_key room_id;
       let combined_room :=
         CombinedRoom.mk room_id name (default [] (students_by_room !! k)) in
       Ok (CombinedRoom.to_dict combined_room))
    rooms.

Definition unassigned_room (unassigned_students : list value) : CombinedRoom.t :=
  CombinedRoom.mk VNone (VStr "Unassigned Students") unassigned_students.

Definition combine_data (students rooms : list value) : result (list value) :=
  validate_input_data students rooms;;
  room_lookup ← _build_room_lookup rooms;
  '(students_by_room, unassigned_students) ← _group_students_by_room students room_lookup;
  result ← _build_combined_rooms rooms students_by_room;
  match unassigned_students with
  | [] => Ok result
  | _ => Ok (result ++ [CombinedRoom.to_dict (unassigned_room unassigned_students)])
  end.

(** * The XML library (xml.etree.ElementTree and xml.dom.minidom)

    The exporter builds an ElementTree, serialises it with [tostring],
    parses the text again with [minidom.parseString] and prints the document
    with [toprettyxml].  These are standard-library functions; they are
    modelled here as far as the exporter uses them: elements without
    attributes that hold a text and child elements. *)

Inductive element : Type :=
  | Element (tag : string) (text : string) (children : list element).

(** [SubElement(parent, tag)] followed by [element.text = text]. *)
Definition leaf (tag text : string) : element := Element tag text [].

(** ElementTree's [_escape_cdata]. *)
Definition _escape_cdata (text : string) : string :=
  replace ">" "&gt;" (replace "<" "&lt;" (replace "&" "&amp;" text)).

Fixpoint concat_str (l : list string) : string :=
  match l with
  | [] => ""
  | x :: rest => x +:+ concat_str rest
  end.

(** [tostring(root, encoding='utf-8')]: no declaration, no white space; an
    element with neither text nor children is written [<tag />]. *)
Fixpoint tostring (e : element) : string :=
  match e with
  | Element tag text children =>
      match text, children with
      | EmptyString, [] => "<" +:+ tag +:+ " />"
      | _, _ =>
          "<" +:+ tag +:+ ">" +:+ _escape_cdata text +:+
          concat_str (map tostring children) +:+ "</" +:+ tag +:+ ">"
      end
  end.

(** The characters an XML 1.0 document may hold (ASCII range): the parser
    rejects control characters other than tab, line feed and carriage
    return. *)
Definition xml_char_ok (a : ascii) : bool :=
  let n := nat_of_ascii a in
  (32 <=? n) || (n =? 9) || (n =? 10) || (n =? 13).

(** Position (line, column) of the first character the parser rejects. *)
Fixpoint first_bad_char (s : string) (line col : nat) : option (nat * nat) :=
  match s with
  | EmptyString => None
  | String a rest =>
      if negb (xml_char_ok a) then Some (line, col)
      else if nat_of_ascii a =? 10 then first_bad_char rest (S line) 0
      else if nat_of_ascii a =? 13 then
        match rest with
        | String b rest' =>
            if nat_of_ascii b =? 10 then first_bad_char rest' (S line) 0
            else first_bad_char rest (S line) 0
        | EmptyString => None
        end
      else first_bad_char rest line (S col)
  end.

(** End-of-line handling of the parser: CR LF and a lone CR become LF. *)
Fixpoint normalize_eol (s : string) : string :=
  match s with
  | EmptyString => EmptyString
  | String a rest =>
      if nat_of_ascii a =? 13 then
        match rest with
        | String b rest' =>
            if nat_of_ascii b =? 10 then String newline (normalize_eol rest')
            else String newline (normalize_eol rest)
        | EmptyString => String newline EmptyString
        end
      else String a (normalize_eol rest)
  end.

Fixpoint reparsed_tree (e : element) : element :=
  match e with
  | Element tag text children =>
      Element tag (normalize_eol text) (map reparsed_tree children)
  end.

(** [minidom.parseString(tostring(root))]: the document the parser builds
    from the serialised tree, or its [ExpatError]. *)
Definition parseString_tostring (root : element) : result element :=
  match first_bad_char (tostring root) 1 0 with
  | Some (line, col) =>
      Raise (ExpatError ("not well-formed (invalid token): line " +:+ str_nat line
                         +:+ ", column " +:+ str_nat col))
  | None => Ok (reparsed_tree root)
  end.

(** minidom's [_write_data]. *)
Definition _write_data (data : string) : string :=
  replace ">" "&gt;"
    (replace dquote "&quot;" (replace "<" "&lt;" (replace "&" "&amp;" data))).

(** [Element.writexml(writer, indent, addindent='  ', newl='\n')] *)
Fixpoint writexml (indent : string) (e : element) : string :=
  let newl := String newline EmptyString in
  match e with
  | Element tag text children =>
      indent +:+ "<" +:+ tag +:+
      match text, children with
      | EmptyString, [] => "/>" +:+ newl
      | _, [] => ">" +:+ _write_data text +:+ "</" +:+ tag +:+ ">" +:+ newl
      | _, _ =>
          ">" +:+ newl +:+
          match text with
          | EmptyString => ""
          | _ => _write_data (indent +:+ "  " +:+ text +:+ newl)
          end +:+
          concat_str (map (writexml (indent +:+ "  ")) children) +:+
          indent +:+ "</" +:+ tag +:+ ">" +:+ newl
      end
  end.

(** [document.toprettyxml(indent='  ')] *)
Definition toprettyxml (root : element) : string :=
  "<?xml version=" +:+ String dquote "1.0" +:+ String dquote " ?>" +:+
  String newline EmptyString +:+ writexml "" root.

(** What an XML parser reads back from character data: the five predefined
    entities stand for their characters (numeric references are not
    needed here).  [skip] counts the characters of an entity still to be
    passed over. *)
Definition entity_at (s : string) : option (ascii * nat) :=
  if String.prefix "amp;" s then Some ("&"%char, 4)
  else if String.prefix "lt;" s then Some ("<"%char, 3)
  else if String.prefix "gt;" s then Some (">"%char, 3)
  else if String.prefix "quot;" s then Some (dquote, 5)
  else if String.prefix "apos;" s then Some (squote, 5)
  else None.

Fixpoint xml_unescape_from (skip : nat) (s : string) : string :=
  match s with
  | EmptyString => EmptyString
  | String a rest =>
      match skip with
      | S n => xml_unescape_from n rest
      | 0 =>
          if decide (a = "&"%char) then
            match entity_at rest with
            | Some (c, n) => String c (xml_unescape_from n rest)
            | None => String a (xml_unescape_from 0 rest)
            end
          else String a (xml_unescape_from 0 rest)
      end
  end.

Definition xml_unescape (s : string) : string := xml_unescape_from 0 s.

(** * data/exporters *)

(** What an export does to the file system, in order. *)
Inductive io_action : Type :=
  | MkdirParents (output_path : string)
      (* [Path(output_path).parent.mkdir(parents=True, exist_ok=True)] *)
  | DumpJSON (output_path : string) (data : list value)
      (* [open(output_path, 'w')] and [json.dump(data, file, indent=2)] *)
  | WriteText (output_path : string) (content : string).
      (* [open(output_path, 'w')] and [file.write(content)] *)

(** The loop of [validate_output_data], the same in both exporters:
    [for i, record in enumerate(data)], counting from [i]. *)
Fixpoint validate_output_records (i : nat) (data : list value) : result () :=
  match data with
  | [] => Ok ()
  | record :: rest =>
      if negb (is_dict record) then
        Raise (DataExportError ("Record at index " +:+ str_nat i +:+ " must be a dictionary") None)
      else
        for_each
          (λ (_ : ()) field,
             if negb (has_key field record) then
               Raise (DataExportError
                        ("Record at index " +:+ str_nat i +:+ " missing required field: " +:+ field)
                        None)
             else Ok ())
          ["id"; "name"; "students"] ();;
        validate_output_records (S i) rest
  end.

Module JSONExporter.
Definition validate_output_data (data : list value) : result bool :=
  validate_output_records 0 data;; Ok true.

Definition get_file_extension : string := ".json".

Definition export (data : list value) (output_path : string)
    : result () * list io_action :=
  match validate_output_data data with
  | Ok _ => (Ok (), [MkdirParents output_path; DumpJSON output_path data])
  | Raise e =>
      (Raise (DataExportError ("Failed to export JSON data: " +:+ str_exn e)
                              (Some output_path)), [])
  end.
End JSONExporter.

Module XMLExporter.
Definition validate_output_data (data : list value) : result bool :=
  validate_output_records 0 data;; Ok true.

Definition get_file_extension : string := ".xml".

Definition _escape_xml_content (content : string) : string :=
  let content := replace "&" "&amp;" content in
  let content := replace "<" "&lt;" content in
  let content := replace ">" "&gt;" content in
  let content := replace dquote "&quot;" content in
  let content := replace squote "&apos;" content in
  content.

Definition student_element (student : value) : result element :=
  sid ← py_get student "id" (VStr "");
  sname ← py_get student "name" (VStr "");
  Ok (Element "student" ""
        [leaf "id" (str sid); leaf "name" (_escape_xml_content (str sname))]).

Definition room_element (room_data : value) : result element :=
  room_id ← py_get room_data "id" VNone;
  name ← py_get room_data "name" (VStr "");
  students ← py_get room_data "students" (VList []);
  items ← py_iter students;
  student_elements ← map_result student_element items;
  Ok (Element "room" ""
        [leaf "id" (if is_not_None room_id then str room_id else "");
         leaf "name" (_escape_xml_content (str name));
         Element "students" "" student_elements]).

(** The tree [_generate_xml] builds before it serialises it. *)
Definition build_tree (data : list value) : result element :=
  rooms ← map_result room_element data;
  Ok (Element "rooms" "" rooms).

Definition _generate_xml (data : list value) : result string :=
  root ← build_tree data;
  reparsed ← parseString_tostring root;
  Ok (toprettyxml reparsed).

Definition export (data : list value) (output_path : string)
    : result () * list io_action :=
  match validate_output_data data;; _generate_xml data with
  | Ok xml_content =>
      (Ok (), [MkdirParents output_path; WriteText output_path xml_content])
  | Raise e =>
      (Raise (DataExportError ("Failed to export XML data: " +:+ str_exn e)
                              (Some output_path)), [])
  end.
End XMLExporter.

(** * data/exporters/exporter_factory.py *)

Inductive exporter_class : Type :=
  | JSONExporter_class
  | XMLExporter_class.

Module DataExporterFactory.
(** The class attribute [_exporters] at import time. *)
Definition _exporters : Dict.t exporter_class :=
  [("json", JSONExporter_class); ("xml", XMLExporter_class)].

Definition create_exporter (registry : Dict.t exporter_class) (format_name : string)
    : result exporter_class :=
  let format_lower := lower format_name in
  match Dict.get format_lower registry with
  | None =>
      let supported := Dict.keys registry in
      Raise (UnsupportedFormatError format_name supported)
  | Some exporter_class => Ok exporter_class
  end.

Definition get_supported_formats (registry : Dict.t exporter_class) : list string :=
  Dict.keys registry.

Definition register_exporter (registry : Dict.t exporter_class)
    (format_name : string) (cls : exporter_class) : Dict.t exporter_class :=
  Dict.set (lower format_name) cls registry.
End DataExporterFactory.

(** [exporter.export(data, output_path)], dispatched on the class. *)
Definition export (cls : exporter_class) (data : list value) (output_path : string)
    : result () * list io_action :=
  match cls with
  | JSONExporter_class => JSONExporter.export data output_path
  | XMLExporter_class => XMLExporter.export data output_path
  end.

(** * data/loaders

    What the loader finds at a path: nothing, a text [json.load] parses, or
    a text it rejects with a [JSONDecodeError] whose [str] is [message].
    Files that exist and cannot be read are not modelled. *)

Inductive file : Type :=
  | JSONDocument (data : value)
  | Malformed (message : string).

(** [Path(file_path).exists()] and, if so, the file. *)
Definition file_system : Type := string → option file.

Module JSONDataLoader.
Definition validate_data_format (data : value) (data_type : string) : result bool :=
  try_except
    ((if decide (data_type = "students") then validate_students_json data
      else if decide (data_type = "rooms") then validate_rooms_json data
      else Raise (ValidationError ("Unknown data type: " +:+ data_type)));;
     Ok true)
    (λ e, match e with
          | ValidationError _ => e
          | _ => ValidationError ("Data validation failed: " +:+ str_exn e)
          end).

(** The body [load_students] and [load_rooms] share; they differ in the
    words of their messages ([Label] is "Students" or "Rooms", [data_type]
    the same in lower case).  [validate_file_path] runs before the [try];
    the [DataLoadError] of a missing file is raised inside it and so
    reaches [except Exception] like every error that is not a
    [JSONDecodeError].  The value returned is the one that was validated,
    hence a list. *)
Definition load (Label data_type : string) (fs : file_system) (file_path : string)
    : result (list value) :=
  validate_file_path file_path;;
  let wrap e :=
    DataLoadError ("Failed to load " +:+ data_type +:+ " data: " +:+ str_exn e)
                  (Some file_path) in
  match fs file_path with
  | None =>
      try_except
        (Raise (DataLoadError (Label +:+ " file not found: " +:+ file_path) (Some file_path)))
        wrap
  | Some (Malformed message) =>
      Raise (DataLoadError ("Invalid JSON format in " +:+ data_type +:+ " file: " +:+ message)
                           (Some file_path))
  | Some (JSONDocument data) =>
      try_except
        (validate_data_format data data_type;;
         match data with
         | VList records => Ok records
         | _ => Ok []
         end)
        wrap
  end.

Definition load_students (fs : file_system) (file_path : string) : result (list value) :=
  load "Students" "students" fs file_path.

Definition load_rooms (fs : file_system) (file_path : string) : result (list value) :=
  load "Rooms" "rooms" fs file_path.
End JSONDataLoader.

(** * data/loaders/loader_factory.py *)

Inductive loader_class : Type :=
  | JSONDataLoader_class.

Module DataLoaderFactory.
(** The class attribute [_loaders] at import time. *)
Definition _loaders : Dict.t loader_class := [("json", JSONDataLoader_class)].

Definition create_loader (registry : Dict.t loader_class) (format_name : string)
    : result loader_class :=
  let format_lower := lower format_name in
  match Dict.get format_lower registry with
  | None =>
      let supported := Dict.keys registry in
      Raise (UnsupportedFormatError format_name supported)
  | Some loader_class => Ok loader_class
  end.

Definition get_supported_formats (registry : Dict.t loader_class) : list string :=
  Dict.keys registry.

Definition register_loader (registry : Dict.t loader_class)
    (format_name : string) (cls : loader_class) : Dict.t loader_class :=
  Dict.set (lower format_name) cls registry.
End DataLoaderFactory.

(** [loader.load_students(file_path)] and [loader.load_rooms(file_path)],
    dispatched on the class. *)
Definition load_students (cls : loader_class) (fs : file_system) (file_path : string)
    : result (list value) :=
  match cls with
  | JSONDataLoader_class => JSONDataLoader.load_students fs file_path
  end.

Definition load_rooms (cls : loader_class) (fs : file_system) (file_path : string)
    : result (list value) :=
  match cls with
  | JSONDataLoader_class => JSONDataLoader.load_rooms fs file_path
  end.

(** * cli/argument_parser.py *)

Record ParsedArguments : Type := mkParsedArguments {
  students_file : string;
  rooms_file : string;
  output_file : string;
  output_format : string;
  verbose : bool;
  quiet : bool
}.

(** * cli/cli_controller.py *)

Module CLIController.
Definition _process_data (students_data rooms_data : list value) : result (list value) :=
  try_except (combine_data students_data rooms_data)
    (λ e, match e with
          | ValidationError _ =>
              ValidationError ("Data processing failed: " +:+ str_exn e)
          | _ =>
              ValidationError ("Unexpected error during data processing: " +:+ str_exn e)
          end).

Definition _export_data (registry : Dict.t exporter_class) (data : list value)
    (output_format output_file : string) : result () * list io_action :=
  let wrap e :=
    match e with
    | DataExportError _ _ =>
        DataExportError ("Failed to export data: " +:+ str_exn e) None
    | UnsupportedFormatError format_name supported_formats =>
        UnsupportedFormatError format_name supported_formats
    | _ => DataExportError ("Unexpected error during data export: " +:+ str_exn e) None
    end in
  match DataExporterFactory.create_exporter registry output_format with
  | Raise e => (Raise (wrap e), [])
  | Ok exporter =>
      let '(r, actions) := export exporter data output_file in
      (try_except r wrap, actions)
  end.

(** The lines [_handle_error] prints on the error stream. *)
Definition _handle_error (error : exn) : list string :=
  let error_prefix := "❌ Error:" in
  let with_path label path :=
    match path with
    | Some p => if decide (p = "") then [] else ["   " +:+ label +:+ ": " +:+ p]
    | None => []
    end in
  match error with
  | DataLoadError _ file_path =>
      (error_prefix +:+ " " +:+ str_exn error) :: with_path "File" file_path
  | DataExportError _ output_path =>
      (error_prefix +:+ " " +:+ str_exn error) :: with_path "Output" output_path
  | ValidationError _ | UnsupportedFormatError _ _ =>
      [error_prefix +:+ " " +:+ str_exn error]
  | _ => [error_prefix +:+ " Unexpected error: " +:+ str_exn error]
  end.

(** [_execute_application] and the [except Exception] branch of [run],
    from the point where both input files have been loaded: the exit
    code, the lines on the error stream and the I/O actions of the
    export. *)
Definition run_loaded (registry : Dict.t exporter_class)
    (students_data rooms_data : list value) (output_format output_file : string)
    : nat * list string * list io_action :=
  match _process_data students_data rooms_data with
  | Raise e => (1, _handle_error e, [])
  | Ok combined_data =>
      match _export_data registry combined_data output_format output_file with
      | (Raise e, actions) => (1, _handle_error e, actions)
      | (Ok _, actions) => (0, [], actions)
      end
  end.
Definition _load_input_data (loaders : Dict.t loader_class) (fs : file_system)
    (args : ParsedArguments) : result (list value * list value) :=
  try_except
    (loader ← DataLoaderFactory.create_loader loaders "json";
     students_data ← load_students loader fs (students_file args);
     rooms_data ← load_rooms loader fs (rooms_file args);
     Ok (students_data, rooms_data))
    (λ e, match e with
          | DataLoadError _ _ =>
              DataLoadError ("Failed to load input data: " +:+ str_exn e) None
          | _ =>
              DataLoadError ("Unexpected error during data loading: " +:+ str_exn e) None
          end).



End CLIController.

(** * The specification's vocabulary

    The definitions below follow the words of the specification, not the
    code: they are what the theorems compare the code with. *)

(** Python's [a == b] on JSON values. *)
Fixpoint py_eq (a b : value) : bool :=
  match a, b with
  | VNone, VNone => true
  | VBool x, VBool y => bool_decide (x = y)
  | VBool x, VInt y | VInt y, VBool x => bool_decide (Z.b2z x = y)
  | VInt x, VInt y => bool_decide (x = y)
  | VStr x, VStr y => bool_decide (x = y)
  | VList xs, VList ys =>
      (fix go (xs ys : list value) : bool :=
         match xs, ys with
         | [], [] => true
         | x :: xs', y :: ys' => py_eq x y && go xs' ys'
         | _, _ => false
         end) xs ys
  | VDict xs, VDict ys =>
      bool_decide (length xs = length ys) &&
      (fix go (xs : list (string * value)) : bool :=
         match xs with
         | [] => true
         | (k, x) :: xs' =>
             match Dict.get k ys with
             | Some y => py_eq x y && go xs'
             | None => false
             end
         end) xs
  | _, _ => false
  end.

(** A value that can be hashed: null, a boolean, an integer or a string. *)
Definition scalar (v : value) : bool :=
  match v with VList _ | VDict _ => false | _ => true end.

(** The key a scalar stands for ([KNone] for the others, which have none). *)
Definition key (v : value) : pykey :=
  match v with
  | VBool b => KInt (Z.b2z b)
  | VInt z => KInt z
  | VStr s => KStr s
  | _ => KNone
  end.

(** [record[k]] if the record is a dictionary that has the key, else
    [dflt]. *)
Definition field (k : string) (dflt : value) (record : value) : value :=
  match record with
  | VDict d => default dflt (Dict.get k d)
  | _ => dflt
  end.

(** "each element is a record and contains the mandatory keys id, name" *)
Definition record_ok (record : value) : bool :=
  is_dict record && has_key "id" record && has_key "name" record.

(** The non-null ids of a collection, in order. *)
Definition ids_of (records : list value) : list value :=
  filter (λ v, is_not_None v) (field "id" VNone <$> records).

(** All non-null ids of a collection can be hashed. *)
Definition hashable_ids (records : list value) : Prop :=
  Forall (λ v, scalar v) (ids_of records).

(** Two entries of the list are equal. *)
Fixpoint has_duplicates (l : list value) : bool :=
  match l with
  | [] => false
  | x :: rest => existsb (py_eq x) rest || has_duplicates rest
  end.

(** "valid structure": every element is a record with the keys id and
    name, and no non-null id occurs twice in its collection. *)
Definition structurally_valid (students rooms : list value) : Prop :=
  Forall (λ r, record_ok r) students ∧ Forall (λ r, record_ok r) rooms ∧
  has_duplicates (ids_of rooms) = false ∧ has_duplicates (ids_of students) = false.

(** The student's room reference is non-null and equals the room's id. *)
Definition assigned_to (room student : value) : bool :=
  is_not_None (field "room" VNone student) &&
  py_eq (field "room" VNone student) (field "id" VNone room).

(** "unassigned": room reference null, absent, or not matching any room
    id. *)
Definition unassigned (rooms : list value) (student : value) : bool :=
  negb (existsb (λ room, assigned_to room student) rooms).

(** The [{id, name}] entry of a student. *)
Definition project (student : value) : value :=
  VDict [("id", field "id" VNone student);
         ("name", field "name" (VStr "Unknown") student)].

(** The CombinedRoom of a room: its id, its name and its students in the
    order of the students list. *)
Definition combined_room (students : list value) (room : value) : value :=
  CombinedRoom.to_dict
    (CombinedRoom.mk (field "id" VNone room) (field "name" (VStr "Unknown Room") room)
       (project <$> filter (λ s, assigned_to room s) students)).

(** The trailing bucket: absent when no student is unassigned. *)
Definition unassigned_bucket (students rooms : list value) : list value :=
  match filter (λ s, unassigned rooms s) students with
  | [] => []
  | us => [CombinedRoom.to_dict (unassigned_room (project <$> us))]
  end.

(** "one CombinedRoom per input room, in the room input's original order,
    followed optionally by the unassigned bucket" *)
Definition combine_spec (students rooms : list value) : list value :=
  (combined_room students <$> rooms) ++ unassigned_bucket students rooms.

(** The students list of an output record. *)
Definition students_of (combined : value) : list value :=
  match field "students" VNone combined with
  | VList l => l
  | _ => []
  end.

(** Every id and every room reference is a scalar (null, a boolean, an
    integer or a string), as in the specification's data model. *)
Definition scalar_keys (students rooms : list value) : Prop :=
  Forall (λ r, scalar (field "id" VNone r)) rooms ∧
  Forall (λ s, scalar (field "id" VNone s)) students ∧
  Forall (λ s, scalar (field "room" VNone s)) students.

(** The trailing record of the unassigned students, written out. *)
Definition unassigned_record (students rooms : list value) : value :=
  VDict [("id", VNone); ("name", VStr "Unassigned Students");
         ("students", VList (project <$> filter (λ s, unassigned rooms s) students))].

(** "every record has the mandatory keys id, name, students" *)
Definition export_record_ok (record : value) : bool :=
  is_dict record && has_key "id" record && has_key "name" record &&
  has_key "students" record.

(** The first mandatory key the record lacks. *)
Definition first_missing_field (record : value) : option string :=
  if negb (has_key "id" record) then Some "id"
  else if negb (has_key "name" record) then Some "name"
  else if negb (has_key "students" record) then Some "students"
  else None.

(** What the validation of an export says about the record at index [i]:
    the message names the index and, for a dictionary, the missing field. *)
Definition complaint (i : nat) (record : value) : option string :=
  if negb (is_dict record) then
    Some ("Record at index " +:+ str_nat i +:+ " must be a dictionary")
  else
    (λ field, "Record at index " +:+ str_nat i +:+ " missing required field: " +:+ field)
      <$> first_missing_field record.

(** The complaint about the first offending record, counting from [i]. *)
Fixpoint first_complaint (i : nat) (data : list value) : option string :=
  match data with
  | [] => None
  | record :: rest =>
      match complaint i record with
      | Some m => Some m
      | None => first_complaint (S i) rest
      end
  end.

(** [''.join(f(c) for c in s)] *)
Fixpoint flat_map_str (f : ascii → string) (s : string) : string :=
  match s with
  | EmptyString => EmptyString
  | String a rest => f a +:+ flat_map_str f rest
  end.

(** "standard entity escaping": each special character, once. *)
Definition escaped_once (a : ascii) : string :=
  if decide (a = "&"%char) then "&amp;"
  else if decide (a = "<"%char) then "&lt;"
  else if decide (a = ">"%char) then "&gt;"
  else if decide (a = dquote) then "&quot;"
  else if decide (a = squote) then "&apos;"
  else String a EmptyString.

(** What the exported document holds for each character of a name. *)
Definition escaped_twice (a : ascii) : string :=
  if decide (a = "&"%char) then "&amp;amp;"
  else if decide (a = "<"%char) then "&amp;lt;"
  else if decide (a = ">"%char) then "&amp;gt;"
  else if decide (a = dquote) then "&amp;quot;"
  else if decide (a = squote) then "&amp;apos;"
  else String a EmptyString.

(** The lines of a text file. *)
Definition lines (l : list string) : string :=
  concat_str ((λ line, line +:+ String newline EmptyString) <$> l).

Definition xml_declaration : string :=
  "<?xml version=" +:+ String dquote "1.0" +:+ String dquote " ?>".

(** * The vocabulary of the further properties

    Notions read off the code, in which the properties of the models, the
    loader, the factories and the controller are stated. *)

(** Some character of the string is not white space. *)
Fixpoint has_visible (s : string) : bool :=
  match s with
  | EmptyString => false
  | String a rest => negb (is_space a) || has_visible rest
  end.

(** A positive integer, as Python sees it: an integer above zero, or
    [True]. *)
Definition positive_int (v : value) : bool :=
  match v with
  | VInt z => (0 <? z)%Z
  | VBool b => b
  | _ => false
  end.

(** A string that is not blank. *)
Definition non_blank_str (v : value) : bool :=
  match v with
  | VStr s => has_visible s
  | _ => false
  end.

(** Why a load fails, and with which error.  [Label] and [data_type] are
    the words of the messages, [validate] the check of the collection. *)
Definition load_failure (Label data_type : string) (validate : value → result ())
    (fs : file_system) (file_path : string) (e : exn) : Prop :=
  if has_visible file_path then
    match fs file_path with
    | None =>
        e = DataLoadError ("Failed to load " +:+ data_type +:+ " data: " +:+ Label
                           +:+ " file not found: " +:+ file_path) (Some file_path)
    | Some (Malformed message) =>
        e = DataLoadError ("Invalid JSON format in " +:+ data_type +:+ " file: "
                           +:+ message) (Some file_path)
    | Some (JSONDocument data) =>
        ∃ m, validate data = Raise (ValidationError m) ∧
             e = DataLoadError ("Failed to load " +:+ data_type +:+ " data: " +:+ m)
                               (Some file_path)
    end
  else e = ValidationError "File path must be a non-empty string".

(** The registries the program can reach: the one of the class at import
    time, and what registrations make of it. *)
Inductive reachable_exporters : Dict.t exporter_class → Prop :=
  | reachable_initial : reachable_exporters DataExporterFactory._exporters
  | reachable_register registry format_name cls :
      reachable_exporters registry →
      reachable_exporters (DataExporterFactory.register_exporter registry format_name cls).







(** What the validation of an input says about the record at index [i]:
    the message names the collection, the index and, for a dictionary, the
    first key that is missing. *)
Definition input_complaint (label : string) (i : nat) (record : value) : option string :=
  if negb (is_dict record) then
    Some (label +:+ " at index " +:+ str_nat i +:+ " must be a dictionary")
  else if negb (has_key "id" record) then
    Some (label +:+ " at index " +:+ str_nat i +:+ " missing required 'id' field")
  else if negb (has_key "name" record) then
    Some (label +:+ " at index " +:+ str_nat i +:+ " missing required 'name' field")
  else None.

(** ** Sample data *)

Definition room_record (id : Z) (name : string) : value :=
  VDict [("id", VInt id); ("name", VStr name)].

Definition student_fields (id : Z) (name : string) (room : value) : Dict.t value :=
  [("id", VInt id); ("name", VStr name); ("room", room)].

Definition student_record (id : Z) (name : string) (room : value) : value :=
  VDict (student_fields id name room).

(** The scenario of the specification: two rooms, Alice in room 1, Bob
    with a dangling reference, Carol without a room key. *)
Definition sample_rooms : list value := [room_record 1 "101"; room_record 2 "102"].

Definition sample_students : list value :=
  [student_record 1 "Alice" (VInt 1); student_record 2 "Bob" (VInt 99);
   room_record 3 "Carol"].

(** A student whose room reference is a JSON array. *)
Definition list_ref_students : list value :=
  [student_record 1 "Alice" (VList [VInt 1])].

(** A combined room named "A&B", without students. *)
Definition ampersand_room : list value :=
  [VDict [("id", VInt 1); ("name", VStr "A&B"); ("students", VList [])]].

(** A combined room that has all the mandatory keys and a null students
    field. *)
Definition null_students_room : list value :=
  [VDict [("id", VInt 1); ("name", VStr "101"); ("students", VNone)]].

(** A combined room whose name holds the control character U+0001, as
    the JSON text "A\u0001" gives it. *)
Definition control_name_room : list value :=
  [VDict [("id", VInt 1); ("name", VStr (String "A" (String "001" EmptyString)));
          ("students", VList [])]].

(** A record without a name, after a well-formed one. *)
Definition nameless_record : list value :=
  [VDict [("id", VInt 1); ("name", VStr "101"); ("students", VList [])];
   VDict [("id", VInt 2); ("students", VList [])]].

(** A room whose id is null. *)
Definition null_room (name : string) : value :=
  VDict [("id", VNone); ("name", VStr name)].

(** Two rooms with the same id. *)
Definition twin_rooms : list value := [room_record 1 "101"; room_record 1 "102"].

(** A room whose id is a JSON array. *)
Definition list_id_rooms : list value :=
  [VDict [("id", VList [VInt 1]); ("name", VStr "101")]].

(** A file system with the two inputs of the scenario and a file that is
    not JSON, and the arguments of a run on them. *)
Definition sample_files : file_system :=
  λ path,
    if decide (path = "students.json") then Some (JSONDocument (VList sample_students))
    else if decide (path = "rooms.json") then Some (JSONDocument (VList sample_rooms))
    else if decide (path = "broken.json") then
      Some (Malformed "Expecting value: line 1 column 1 (char 0)")
    else None.


(** ** Auxiliary notions used by the proofs *)

(** The first entry that [hash] rejects, if any. *)
Fixpoint first_unhashable (l : list value) : option value :=
  match l with
  | [] => None
  | v :: rest => if scalar v then first_unhashable rest else Some v
  end.

(** The keys of the room lookup: those of the non-null room ids. *)
Definition room_keys (rooms : list value) : list pykey := key <$> ids_of rooms.

(** [room_id is not None and room_id in room_lookup], read off the rooms. *)
Definition in_rooms (rooms : list value) (student : value) : bool :=
  is_not_None (field "room" VNone student) &&
  bool_decide (key (field "room" VNone student) ∈ room_keys rooms).

(** The student is filed under the key [k]. *)
Definition goes_to (rooms : list value) (k : pykey) (student : value) : bool :=
  in_rooms rooms student && bool_decide (key (field "room" VNone student) = k).

(** Two dictionaries that differ at most at the key [room], the second
    one without a room reference. *)
Definition room_cleared (d d' : Dict.t value) : Prop :=
  (∀ k, k ≠ "room" → Dict.get k d' = Dict.get k d) ∧
  default VNone (Dict.get "room" d') = VNone.

(** [students_by_room.get(k, [])] *)
Definition bucket (students_by_room : gmap pykey (list value)) (k : pykey) : list value :=
  default [] (students_by_room !! k).

(** Closes goals about concrete data by evaluation. *)
Ltac evaluate :=
  repeat first
    [ exact I | reflexivity | apply Forall_nil | apply Forall_cons
    | split | progress vm_compute ].

(** * Proofs *)

(** ** The error monad *)

Lemma bind_Ok {A B} (m : result A) (f : A → result B) (b : B) :
  m ≫= f = Ok b ↔ ∃ a, m = Ok a ∧ f a = Ok b.
Proof.
  destruct m as [a|e]; simpl.
  - split; [eauto | intros (a' & [= ->] & H); done].
  - split; [done | intros (a' & [=] & _)].
Qed.

Lemma bind_Raise {A B} (m : result A) (f : A → result B) (e : exn) :
  m ≫= f = Raise e ↔ m = Raise e ∨ ∃ a, m = Ok a ∧ f a = Raise e.
Proof.
  destruct m as [a|e']; simpl.
  - split; [eauto | intros [[=] | (a' & [= ->] & H)]; done].
  - split; [intros [= ->]; eauto | intros [[= ->] | (a' & [=] & _)]; done].
Qed.

Lemma for_each_app {A S} (body : S → A → result S) (l1 l2 : list A) (s : S) :
  for_each body (l1 ++ l2) s = for_each body l1 s ≫= for_each body l2.
Proof.
  revert s. induction l1 as [|x l1 IH]; intros s; simpl; [done|].
  destruct (body s x); simpl; auto.
Qed.

Lemma map_result_pure {A B} (f : A → result B) (g : A → B) (l : list A) :
  Forall (λ x, f x = Ok (g x)) l → map_result f l = Ok (g <$> l).
Proof.
  induction 1 as [|x l Hx _ IH]; simpl; [done|].
  by rewrite Hx, IH.
Qed.

(** ** Records and their fields *)

Lemma py_get_dict (record : value) (k : string) (dflt : value) :
  is_dict record → py_get record k dflt = Ok (field k dflt record).
Proof. by destruct record. Qed.

Lemma record_ok_dict (record : value) : record_ok record → is_dict record.
Proof. unfold record_ok. by destruct (is_dict record). Qed.

Lemma Forall_record_ok_dict (l : list value) :
  Forall (λ r, record_ok r) l → Forall (λ r, is_dict r) l.
Proof. intros H. eapply Forall_impl; [exact H | apply record_ok_dict]. Qed.

Lemma validate_records_Ok (label : string) (i : nat) (l : list value) :
  validate_records label i l = Ok () ↔ Forall (λ r, record_ok r) l.
Proof.
  revert i. induction l as [|r l IH]; intros i; simpl.
  - split; [constructor | done].
  - rewrite Forall_cons, <- IH. unfold record_ok.
    destruct (is_dict r), (has_key "id" r), (has_key "name" r); simpl;
      naive_solver.
Qed.

Lemma non_null_ids_Ok (l : list value) :
  Forall (λ r, is_dict r) l → non_null_ids l = Ok (ids_of l).
Proof.
  intros Hl. unfold non_null_ids, ids_of.
  rewrite (map_result_pure _ (field "id" VNone)); [done|].
  eapply Forall_impl; [exact Hl|]. intros r Hr. by apply py_get_dict.
Qed.

(** ** Hashing *)

Lemma hash_key_scalar (v : value) : scalar v → hash_key v = Ok (key v).
Proof. destruct v as [| [] | | | |]; done. Qed.

Lemma hash_key_not_scalar (v : value) :
  scalar v = false →
  hash_key v = Raise (TypeError ("unhashable type: '" +:+ type_name v +:+ "'")).
Proof. by destruct v. Qed.

Lemma first_unhashable_None (l : list value) :
  first_unhashable l = None ↔ Forall (λ v, scalar v) l.
Proof.
  induction l as [|v l IH]; simpl; [by split; [constructor|]|].
  rewrite Forall_cons. destruct (scalar v); simpl; [naive_solver|].
  split; [done | intros [[] _]].
Qed.

Lemma first_unhashable_Some (l : list value) (v : value) :
  first_unhashable l = Some v → v ∈ l ∧ scalar v = false.
Proof.
  induction l as [|x l IH]; simpl; [done|].
  destruct (scalar x) eqn:Hx.
  - intros [Hin Hv]%IH. split; [by right | done].
  - intros [= <-]. split; [by left | done].
Qed.

Lemma map_hash_key (l : list value) :
  map_result hash_key l =
  match first_unhashable l with
  | None => Ok (key <$> l)
  | Some v => Raise (TypeError ("unhashable type: '" +:+ type_name v +:+ "'"))
  end.
Proof.
  induction l as [|v l IH]; simpl; [done|].
  destruct (scalar v) eqn:Hv.
  - rewrite hash_key_scalar by (by rewrite Hv). simpl. rewrite IH.
    by destruct (first_unhashable l).
  - by rewrite hash_key_not_scalar.
Qed.

Lemma size_list_to_set_le (ks : list pykey) :
  size (list_to_set ks : gset pykey) ≤ length ks.
Proof.
  induction ks as [|k ks IH]; [by rewrite list_to_set_nil, size_empty|].
  rewrite list_to_set_cons. simpl.
  - destruct (decide (k ∈ (list_to_set ks : gset pykey))) as [Hin|Hin].
    + replace ({[k]} ∪ list_to_set ks) with (list_to_set ks : gset pykey)
        by set_solver. lia.
    + rewrite size_union by set_solver. rewrite size_singleton. lia.
Qed.

Lemma size_list_to_set_NoDup (ks : list pykey) :
  size (list_to_set ks : gset pykey) = length ks ↔ NoDup ks.
Proof.
  split; [|apply size_list_to_set].
  induction ks as [|k ks IH]; [constructor|].
  rewrite list_to_set_cons. simpl. intros Hsize.
  destruct (decide (k ∈ (list_to_set ks : gset pykey))) as [Hin|Hin].
  - replace ({[k]} ∪ list_to_set ks) with (list_to_set ks : gset pykey) in Hsize
      by set_solver.
    pose proof (size_list_to_set_le ks). lia.
  - rewrite size_union in Hsize by set_solver. rewrite size_singleton in Hsize.
    constructor; [set_solver | apply IH; lia].
Qed.

Lemma py_eq_key (x y : value) :
  scalar x → scalar y → py_eq x y = bool_decide (key x = key y).
Proof.
  destruct x as [| [] | | | |], y as [| [] | | | |]; simpl; try done;
    intros _ _; repeat case_bool_decide; simplify_eq; try done.
Qed.

Lemma key_None (v : value) : scalar v → key v = KNone → v = VNone.
Proof. by destruct v. Qed.

Lemma existsb_py_eq_key (x : value) (l : list value) :
  scalar x → Forall (λ v, scalar v) l →
  existsb (py_eq x) l = bool_decide (key x ∈ key <$> l).
Proof.
  intros Hx. induction 1 as [|y l Hy _ IH]; simpl.
  - done.
  - rewrite IH, py_eq_key by done.
    repeat case_bool_decide; simpl; set_solver.
Qed.

Lemma has_duplicates_NoDup (l : list value) :
  Forall (λ v, scalar v) l → has_duplicates l = false ↔ NoDup (key <$> l).
Proof.
  induction 1 as [|x l Hx Hl IH]; simpl.
  - split; [constructor | done].
  - rewrite existsb_py_eq_key, NoDup_cons, orb_false_iff, <- IH by done.
    by rewrite bool_decide_eq_false.
Qed.

(** [len(set(l)) != len(l)], for the list of the non-null ids. *)
Lemma len_set_spec (l : list value) :
  len_set l =
  match first_unhashable l with
  | None => Ok (size (list_to_set (key <$> l) : gset pykey))
  | Some v => Raise (TypeError ("unhashable type: '" +:+ type_name v +:+ "'"))
  end.
Proof.
  unfold len_set. rewrite map_hash_key. by destruct (first_unhashable l).
Qed.

Lemma len_set_duplicates (l : list value) (n : nat) :
  Forall (λ v, scalar v) l → len_set l = Ok n →
  negb (length l =? n) = has_duplicates l.
Proof.
  intros Hl. rewrite len_set_spec.
  apply first_unhashable_None in Hl as Hnone. rewrite Hnone. intros [= <-].
  destruct (has_duplicates l) eqn:Hdup.
  - apply negb_true_iff, Nat.eqb_neq. intros Heq.
    assert (NoDup (key <$> l)) as Hnd.
    { apply size_list_to_set_NoDup. by rewrite length_fmap. }
    apply has_duplicates_NoDup in Hnd; [congruence | done].
  - apply negb_false_iff, Nat.eqb_eq.
    apply has_duplicates_NoDup in Hdup; [|done].
    apply size_list_to_set_NoDup in Hdup. by rewrite length_fmap in Hdup.
Qed.

(** ** Input validation *)

Lemma ids_of_cons (r : value) (l : list value) :
  ids_of (r :: l) =
  if is_not_None (field "id" VNone r) then field "id" VNone r :: ids_of l
  else ids_of l.
Proof.
  unfold ids_of. rewrite fmap_cons, filter_cons.
  destruct (is_not_None (field "id" VNone r)); by case_decide.
Qed.

Lemma ids_of_app (l1 l2 : list value) : ids_of (l1 ++ l2) = ids_of l1 ++ ids_of l2.
Proof. unfold ids_of. by rewrite fmap_app, filter_app. Qed.

Lemma scalar_ids_of (k : string) (l : list value) :
  Forall (λ v, scalar v) (filter (λ v, is_not_None v) (field k VNone <$> l)) ↔
  Forall (λ r, scalar (field k VNone r)) l.
Proof.
  induction l as [|r l IH]; [by split; constructor|].
  rewrite fmap_cons, filter_cons, Forall_cons, <- IH.
  case_decide as Hr.
  - by rewrite Forall_cons.
  - destruct (field k VNone r); naive_solver.
Qed.

(** What [_validate_business_rules] does on lists of dictionaries. *)
Lemma _validate_business_rules_spec (students rooms : list value) :
  Forall (λ r, is_dict r) students → Forall (λ r, is_dict r) rooms →
  _validate_business_rules students rooms =
  match first_unhashable (ids_of rooms) with
  | Some v => Raise (TypeError ("unhashable type: '" +:+ type_name v +:+ "'"))
  | None =>
      if has_duplicates (ids_of rooms) then
        Raise (ValidationError "Duplicate room IDs found")
      else
        match first_unhashable (ids_of students) with
        | Some v => Raise (TypeError ("unhashable type: '" +:+ type_name v +:+ "'"))
        | None =>
            if has_duplicates (ids_of students) then
              Raise (ValidationError "Duplicate student IDs found")
            else Ok ()
        end
  end.
Proof.
  intros HS HR. unfold _validate_business_rules.
  rewrite (non_null_ids_Ok rooms HR). simpl.
  destruct (len_set (ids_of rooms)) as [n|e] eqn:Hn;
    rewrite len_set_spec in Hn;
    destruct (first_unhashable (ids_of rooms)) eqn:HuR; simplify_eq; simpl; [|done].
  rewrite (len_set_duplicates (ids_of rooms))
    by (by rewrite <- ?first_unhashable_None, ?len_set_spec, ?HuR).
  destruct (has_duplicates (ids_of rooms)); [done|].
  rewrite (non_null_ids_Ok students HS). simpl.
  destruct (len_set (ids_of students)) as [n|e] eqn:Hn;
    rewrite len_set_spec in Hn;
    destruct (first_unhashable (ids_of students)) eqn:HuS; simplify_eq; simpl; [|done].
  rewrite (len_set_duplicates (ids_of students))
    by (by rewrite <- ?first_unhashable_None, ?len_set_spec, ?HuS).
  by destruct (has_duplicates (ids_of students)).
Qed.

(** The outcome of [validate_input_data] once the structural checks pass. *)
Lemma validate_input_data_spec (students rooms : list value) :
  Forall (λ r, record_ok r) students → Forall (λ r, record_ok r) rooms →
  validate_input_data students rooms =
  match first_unhashable (ids_of rooms) with
  | Some v =>
      Raise (ValidationError
               ("Input validation failed: unhashable type: '" +:+ type_name v +:+ "'"))
  | None =>
      if has_duplicates (ids_of rooms) then
        Raise (ValidationError "Duplicate room IDs found")
      else
        match first_unhashable (ids_of students) with
        | Some v =>
            Raise (ValidationError
                     ("Input validation failed: unhashable type: '"
                      +:+ type_name v +:+ "'"))
        | None =>
            if has_duplicates (ids_of students) then
              Raise (ValidationError "Duplicate student IDs found")
            else Ok true
        end
  end.
Proof.
  intros HS HR. unfold validate_input_data, validate_students_data, validate_rooms_data.
  rewrite (proj2 (validate_records_Ok _ _ _) HS), (proj2 (validate_records_Ok _ _ _) HR).
  simpl. rewrite _validate_business_rules_spec by by apply Forall_record_ok_dict.
  destruct (first_unhashable (ids_of rooms)); [done|].
  destruct (has_duplicates (ids_of rooms)); [done|].
  destruct (first_unhashable (ids_of students)); [done|].
  by destruct (has_duplicates (ids_of students)).
Qed.

(** Whatever goes wrong in [validate_input_data], the caller sees a
    [ValidationError]. *)
Lemma validate_input_data_Raise (students rooms : list value) (e : exn) :
  validate_input_data students rooms = Raise e → ∃ m, e = ValidationError m.
Proof.
  unfold validate_input_data, try_except.
  destruct (_ ≫= _) as [b|e']; [done|]. intros [= <-].
  destruct e'; eauto.
Qed.

Lemma validate_input_data_Ok (students rooms : list value) (b : bool) :
  validate_input_data students rooms = Ok b →
  structurally_valid students rooms ∧
  Forall (λ r, scalar (field "id" VNone r)) students ∧
  Forall (λ r, scalar (field "id" VNone r)) rooms.
Proof.
  intros Hv.
  assert (Forall (λ r, record_ok r) students ∧ Forall (λ r, record_ok r) rooms)
    as [HS HR].
  { revert Hv. unfold validate_input_data, validate_students_data, validate_rooms_data.
    rewrite <- (validate_records_Ok "Student" 0), <- (validate_records_Ok "Room" 0).
    destruct (validate_records "Student" 0 students) as [[]|]; [|done].
    by destruct (validate_records "Room" 0 rooms) as [[]|]. }
  rewrite validate_input_data_spec in Hv by done.
  destruct (first_unhashable (ids_of rooms)) eqn:HuR; [done|].
  destruct (has_duplicates (ids_of rooms)) eqn:HdR; [done|].
  destruct (first_unhashable (ids_of students)) eqn:HuS; [done|].
  destruct (has_duplicates (ids_of students)) eqn:HdS; [done|].
  apply first_unhashable_None, scalar_ids_of in HuR, HuS.
  by repeat split.
Qed.

(** ** The room lookup *)

Lemma for_each_cons {A S} (body : S → A → result S) (x : A) (l : list A) (s : S) :
  for_each body (x :: l) s = body s x ≫= for_each body l.
Proof. done. Qed.

Lemma add_room_spec (m0 : gmap pykey value) (r : value) :
  is_dict r → scalar (field "id" VNone r) →
  add_room m0 r =
  Ok (if is_not_None (field "id" VNone r) then <[key (field "id" VNone r) := r]> m0
      else m0).
Proof.
  intros Hd Hs. unfold add_room. rewrite py_get_dict by done. simpl.
  destruct (is_not_None (field "id" VNone r)); [|done].
  by rewrite hash_key_scalar.
Qed.

Lemma _build_room_lookup_spec (rooms : list value) :
  Forall (λ r, is_dict r) rooms →
  Forall (λ r, scalar (field "id" VNone r)) rooms →
  ∃ m, _build_room_lookup rooms = Ok m ∧
       ∀ k, is_Some (m !! k) ↔ k ∈ room_keys rooms.
Proof.
  intros Hd Hs. unfold _build_room_lookup.
  assert (∀ m0 : gmap pykey value, ∃ m, for_each add_room rooms m0 = Ok m ∧
            ∀ k, is_Some (m !! k) ↔ is_Some (m0 !! k) ∨ k ∈ room_keys rooms) as Hgen.
  { induction rooms as [|r rooms IH]; intros m0.
    - exists m0. split; [done|]. intros k. unfold room_keys. set_solver.
    - apply Forall_cons in Hd as [Hr Hd]. apply Forall_cons in Hs as [Hsr Hs].
      rewrite for_each_cons, add_room_spec by done. simpl.
      unfold room_keys. rewrite ids_of_cons.
      destruct (is_not_None (field "id" VNone r)) eqn:Hnn.
      + destruct (IH Hd Hs (<[key (field "id" VNone r) := r]> m0)) as (m & -> & Hm).
        exists m. split; [done|]. intros k. rewrite Hm, fmap_cons, elem_of_cons.
        rewrite lookup_insert_is_Some. unfold room_keys.
        destruct (decide (key (field "id" VNone r) = k)); naive_solver.
      + destruct (IH Hd Hs m0) as (m & -> & Hm). eauto. }
  destruct (Hgen ∅) as (m & -> & Hm). exists m. split; [done|].
  intros k. rewrite Hm, lookup_empty. split; [intros [[? [=]]|]; done | auto].
Qed.

(** ** Grouping the students *)

(** One turn of the loop files the student's entry at the end of one
    bucket. *)
Lemma group_student_spec (rooms : list value) (room_lookup : gmap pykey value)
    (sbr : gmap pykey (list value)) (un : list value) (s : value) :
  (∀ k, is_Some (room_lookup !! k) ↔ k ∈ room_keys rooms) →
  is_dict s → scalar (field "room" VNone s) →
  ∃ sbr', group_student room_lookup (sbr, un) s =
          Ok (sbr', if in_rooms rooms s then un else un ++ [project s]) ∧
          ∀ k, bucket sbr' k =
               bucket sbr k ++ (if goes_to rooms k s then [project s] else []).
Proof.
  intros Hlookup Hd Hs. unfold group_student.
  rewrite !py_get_dict by done. simpl. unfold goes_to, in_rooms.
  destruct (is_not_None (field "room" VNone s)) eqn:Hnn; simpl.
  - rewrite hash_key_scalar by done. simpl.
    set (kr := key (field "room" VNone s)).
    destruct (room_lookup !! kr) as [r|] eqn:Hr.
    + assert (kr ∈ room_keys rooms) as Hin by (apply Hlookup; eauto).
      rewrite (bool_decide_eq_true_2 _ Hin). simpl.
      eexists. split; [done|]. intros k. unfold bucket.
      rewrite lookup_alter.
      destruct (decide (kr = k)) as [->|Hne].
      * rewrite bool_decide_eq_true_2 by done.
        destruct (sbr !! k) eqn:Hk; simpl.
        -- by rewrite Hk.
        -- by rewrite lookup_insert_eq.
      * rewrite bool_decide_eq_false_2 by done. rewrite app_nil_r.
        destruct (sbr !! kr); [done|]. by rewrite lookup_insert_ne.
    + assert (kr ∉ room_keys rooms) as Hin.
      { intros Hin%Hlookup. rewrite Hr in Hin. by destruct Hin. }
      rewrite (bool_decide_eq_false_2 _ Hin). simpl.
      exists sbr. split; [done|]. intros k. by rewrite app_nil_r.
  - exists sbr. split; [done|]. intros k. by rewrite app_nil_r.
Qed.

Lemma _group_students_by_room_spec (rooms students : list value)
    (room_lookup : gmap pykey value) :
  (∀ k, is_Some (room_lookup !! k) ↔ k ∈ room_keys rooms) →
  Forall (λ s, is_dict s) students →
  Forall (λ s, scalar (field "room" VNone s)) students →
  ∃ sbr, _group_students_by_room students room_lookup =
         Ok (sbr, project <$> filter (λ s, negb (in_rooms rooms s)) students) ∧
         ∀ k, bucket sbr k = project <$> filter (λ s, goes_to rooms k s) students.
Proof.
  intros Hlookup Hd Hs. unfold _group_students_by_room.
  assert (∀ sbr0 un0, ∃ sbr,
            for_each (group_student room_lookup) students (sbr0, un0) =
            Ok (sbr, un0 ++ (project <$> filter (λ s, negb (in_rooms rooms s)) students)) ∧
            ∀ k, bucket sbr k =
                 bucket sbr0 k ++ (project <$> filter (λ s, goes_to rooms k s) students))
    as Hgen.
  { induction students as [|s students IH]; intros sbr0 un0.
    - exists sbr0. simpl. rewrite app_nil_r. split; [done|].
      intros k. by rewrite app_nil_r.
    - apply Forall_cons in Hd as [Hds Hd]. apply Forall_cons in Hs as [Hss Hs].
      destruct (group_student_spec rooms room_lookup sbr0 un0 s Hlookup Hds Hss)
        as (sbr1 & Hstep & Hb1).
      rewrite for_each_cons, Hstep. simpl.
      destruct (IH Hd Hs sbr1 (if in_rooms rooms s then un0 else un0 ++ [project s]))
        as (sbr & -> & Hb).
      exists sbr. split.
      + f_equal. f_equal. rewrite filter_cons.
        destruct (in_rooms rooms s); simpl; try case_decide; try done.
        by rewrite <- app_assoc.
      + intros k. rewrite Hb, Hb1, filter_cons, <- app_assoc. f_equal.
        destruct (goes_to rooms k s); simpl; try case_decide; done. }
  destruct (Hgen ∅ []) as (sbr & -> & Hb). exists sbr. split; [done|].
  intros k. rewrite Hb. unfold bucket at 1. by rewrite lookup_empty.
Qed.

Lemma group_student_Ok (room_lookup : gmap pykey value)
    (acc acc' : gmap pykey (list value) * list value) (s : value) :
  group_student room_lookup acc s = Ok acc' → scalar (field "room" VNone s).
Proof.
  destruct acc as [sbr un]. unfold group_student.
  destruct s; simpl; try done.
  destruct (default VNone (Dict.get "room" items)); simpl; done.
Qed.

Lemma _group_students_by_room_Ok (students : list value)
    (room_lookup : gmap pykey value) (acc : gmap pykey (list value) * list value) :
  _group_students_by_room students room_lookup = Ok acc →
  Forall (λ s, scalar (field "room" VNone s)) students.
Proof.
  unfold _group_students_by_room. generalize (∅ : gmap pykey (list value), @nil value).
  induction students as [|s students IH]; intros acc0; [constructor|].
  rewrite for_each_cons. intros (acc1 & Hstep & Hrest)%bind_Ok.
  constructor; [by eapply group_student_Ok | by eapply IH].
Qed.

(** ** Building the output *)

Lemma _build_combined_rooms_spec (rooms : list value)
    (sbr : gmap pykey (list value)) :
  Forall (λ r, is_dict r) rooms →
  Forall (λ r, scalar (field "id" VNone r)) rooms →
  _build_combined_rooms rooms sbr =
  Ok ((λ r, CombinedRoom.to_dict
              (CombinedRoom.mk (field "id" VNone r) (field "name" (VStr "Unknown Room") r)
                 (bucket sbr (key (field "id" VNone r))))) <$> rooms).
Proof.
  intros Hd Hs. unfold _build_combined_rooms. apply map_result_pure.
  apply Forall_forall. intros r Hr.
  rewrite ->Forall_forall in Hd, Hs.
  rewrite !py_get_dict by auto. simpl. by rewrite hash_key_scalar by auto.
Qed.

(** ** The code's grouping agrees with the specification's *)

Lemma key_elem_of_ids (v : value) (l : list value) :
  scalar v → Forall (λ x, scalar x) l →
  key v ∈ key <$> l ↔ existsb (py_eq v) l.
Proof.
  intros Hv Hl. rewrite existsb_py_eq_key by done. by rewrite bool_decide_spec.
Qed.

Lemma in_rooms_existsb (rooms : list value) (s : value) :
  Forall (λ r, scalar (field "id" VNone r)) rooms →
  scalar (field "room" VNone s) →
  in_rooms rooms s = existsb (λ room, assigned_to room s) rooms.
Proof.
  intros Hr Hs. unfold in_rooms, assigned_to, room_keys.
  destruct (is_not_None (field "room" VNone s)) eqn:Hnn; simpl.
  - induction Hr as [|r rooms Hsr _ IH]; simpl; [done|].
    rewrite <- IH, ids_of_cons, (py_eq_key _ _ Hs Hsr).
    destruct (is_not_None (field "id" VNone r)) eqn:Hid.
    + rewrite fmap_cons. repeat case_bool_decide; simpl; set_solver.
    + destruct (field "id" VNone r); try done.
      rewrite (bool_decide_eq_false_2 (key _ = key VNone)); [done|].
      intros Hk. apply key_None in Hk; [|done]. by rewrite Hk in Hnn.
  - clear Hr. induction rooms as [|r rooms IH]; simpl; [done|].
    by rewrite <- IH.
Qed.

Lemma goes_to_assigned_to (rooms : list value) (r s : value) :
  Forall (λ r, scalar (field "id" VNone r)) rooms →
  scalar (field "room" VNone s) → r ∈ rooms →
  goes_to rooms (key (field "id" VNone r)) s = assigned_to r s.
Proof.
  intros Hr Hs Hin. unfold goes_to.
  rewrite in_rooms_existsb by done.
  assert (scalar (field "id" VNone r)) as Hsr by (by eapply Forall_forall in Hr).
  unfold assigned_to at 2. rewrite (py_eq_key _ _ Hs Hsr).
  destruct (is_not_None (field "room" VNone s)) eqn:Hnn; simpl.
  - case_bool_decide as Hk; [|by rewrite andb_false_r].
    rewrite andb_true_r. apply existsb_exists. exists r.
    split; [by apply list_elem_of_In|].
    unfold assigned_to. rewrite Hnn, (py_eq_key _ _ Hs Hsr). simpl.
    by apply bool_decide_eq_true_2.
  - rewrite andb_false_iff. left. apply not_true_iff_false.
    intros (r' & _ & Hr')%existsb_exists. unfold assigned_to in Hr'.
    by rewrite Hnn in Hr'.
Qed.

Lemma filter_ext_Forall {A} (P Q : A → Prop) `{∀ x, Decision (P x)}
    `{∀ x, Decision (Q x)} (l : list A) :
  Forall (λ x, P x ↔ Q x) l → filter P l = filter Q l.
Proof.
  induction 1 as [|x l Hx _ IH]; [done|].
  rewrite !filter_cons, IH. repeat case_decide; naive_solver.
Qed.

(** ** [combine_data] computes [combine_spec] *)

(** The conditions under which the combination goes through. *)
Lemma combine_data_correct (students rooms : list value) :
  structurally_valid students rooms →
  Forall (λ r, scalar (field "id" VNone r)) rooms →
  Forall (λ s, scalar (field "id" VNone s)) students →
  Forall (λ s, scalar (field "room" VNone s)) students →
  combine_data students rooms = Ok (combine_spec students rooms).
Proof.
  intros (HS & HR & HdR & HdS) HsR HsS Href. unfold combine_data.
  rewrite validate_input_data_spec by done.
  rewrite (proj2 (first_unhashable_None _)) by by apply scalar_ids_of.
  rewrite HdR.
  rewrite (proj2 (first_unhashable_None _)) by by apply scalar_ids_of.
  rewrite HdS. simpl.
  pose proof (Forall_record_ok_dict _ HS) as HSd.
  pose proof (Forall_record_ok_dict _ HR) as HRd.
  destruct (_build_room_lookup_spec rooms HRd HsR) as (m & -> & Hm). simpl.
  destruct (_group_students_by_room_spec rooms students m Hm HSd Href)
    as (sbr & -> & Hb). simpl.
  rewrite _build_combined_rooms_spec by done. simpl.
  assert (filter (λ s, negb (in_rooms rooms s)) students =
          filter (λ s, unassigned rooms s) students) as ->.
  { apply filter_ext_Forall. eapply Forall_impl; [exact Href|].
    intros s Hs. unfold unassigned. by rewrite in_rooms_existsb. }
  assert ((λ r, CombinedRoom.to_dict
                  (CombinedRoom.mk (field "id" VNone r)
                     (field "name" (VStr "Unknown Room") r)
                     (bucket sbr (key (field "id" VNone r))))) <$> rooms =
          combined_room students <$> rooms) as ->.
  { apply list_fmap_ext. intros i r Hir. unfold combined_room.
    rewrite Hb. do 3 f_equal. apply filter_ext_Forall.
    eapply Forall_impl; [exact Href|]. intros s Hs.
    rewrite goes_to_assigned_to; [done..|]. by eapply list_elem_of_lookup_2. }
  unfold combine_spec, unassigned_bucket.
  destruct (filter (λ s, unassigned rooms s) students); simpl; [|done].
  by rewrite app_nil_r.
Qed.

(** Conversely, a combination that returns went through all the checks. *)
Lemma combine_data_Ok (students rooms out : list value) :
  combine_data students rooms = Ok out →
  structurally_valid students rooms ∧
  Forall (λ r, scalar (field "id" VNone r)) rooms ∧
  Forall (λ s, scalar (field "id" VNone s)) students ∧
  Forall (λ s, scalar (field "room" VNone s)) students ∧
  out = combine_spec students rooms.
Proof.
  intros Hout.
  assert (∃ b, validate_input_data students rooms = Ok b) as [b Hv].
  { unfold combine_data in Hout.
    destruct (validate_input_data students rooms); [eauto | done]. }
  destruct (validate_input_data_Ok _ _ _ Hv) as (Hvalid & HsS & HsR).
  assert (Forall (λ s, scalar (field "room" VNone s)) students) as Href.
  { unfold combine_data in Hout. rewrite Hv in Hout. simpl in Hout.
    apply bind_Ok in Hout as (m & _ & Hout).
    apply bind_Ok in Hout as (acc & Hacc & _).
    by eapply _group_students_by_room_Ok. }
  split_and!; try done.
  rewrite combine_data_correct in Hout by done. by injection Hout.
Qed.

(** * The claims *)

Lemma structurally_valid_dicts (students rooms : list value) :
  structurally_valid students rooms →
  Forall (λ r, is_dict r) students ∧ Forall (λ r, is_dict r) rooms.
Proof. intros (HS & HR & _). split; by apply Forall_record_ok_dict. Qed.

Lemma unassigned_bucket_cases (students rooms : list value) :
  unassigned_bucket students rooms =
  if existsb (unassigned rooms) students then [unassigned_record students rooms]
  else [].
Proof.
  unfold unassigned_bucket, unassigned_record.
  destruct (filter (λ s, unassigned rooms s) students) as [|u us] eqn:Hf.
  - destruct (existsb (unassigned rooms) students) eqn:Hex; [|done].
    apply existsb_exists in Hex as (s & Hin%list_elem_of_In & Hs).
    assert (s ∈ filter (λ s, unassigned rooms s) students) as Hin'
      by (apply list_elem_of_filter; split; [by rewrite Hs | done]).
    rewrite Hf in Hin'. by apply elem_of_nil in Hin'.
  - assert (u ∈ filter (λ s, unassigned rooms s) students) as Hin
      by (rewrite Hf; left).
    apply list_elem_of_filter in Hin as [Hu Hin].
    assert (existsb (unassigned rooms) students = true) as ->; [|done].
    apply existsb_exists. exists u. split; [by apply list_elem_of_In|].
    by apply Is_true_eq_true.
Qed.

(** C1, as amended: for structurally valid students and rooms whose ids
    and room references are scalars, [combine_data] returns a list of
    [len(rooms)] records, plus one when some student is unassigned; the
    extra record is the last one, has a null id, the name "Unassigned
    Students" and holds the unassigned students. *)
Theorem C1_output_length (students rooms : list value) :
  structurally_valid students rooms → scalar_keys students rooms →
  ∃ out, combine_data students rooms = Ok out ∧
    length out =
      length rooms + (if existsb (unassigned rooms) students then 1 else 0) ∧
    (existsb (unassigned rooms) students = true →
     out !! length rooms =
       Some (VDict [("id", VNone); ("name", VStr "Unassigned Students");
                    ("students",
                     VList (project <$> filter (λ s, unassigned rooms s) students))])).
Proof.
  intros Hvalid (HsR & HsS & Href).
  exists (combine_spec students rooms).
  split; [by apply combine_data_correct|].
  unfold combine_spec. rewrite unassigned_bucket_cases, length_app, length_fmap.
  split; [by destruct (existsb (unassigned rooms) students)|].
  intros ->. rewrite lookup_app_r by (by rewrite length_fmap).
  by rewrite length_fmap, Nat.sub_diag.
Qed.

Lemma C1_output_length_witness :
  structurally_valid sample_students sample_rooms ∧
  scalar_keys sample_students sample_rooms ∧
  ∃ out, combine_data sample_students sample_rooms = Ok out ∧ length out = 3.
Proof.
  assert (structurally_valid sample_students sample_rooms) as Hv by evaluate.
  assert (scalar_keys sample_students sample_rooms) as Hs by evaluate.
  split; [exact Hv|]. split; [exact Hs|].
  destruct (C1_output_length sample_students sample_rooms Hv Hs) as (out & Hout & Hlen & _).
  exists out. split; [exact Hout | exact Hlen].
Defined.

(** C1 as stated fails: the students below are structurally valid (one
    record with the keys id and name, no duplicate id), the rooms list is
    empty, so the student is unassigned and the claim promises a list of
    length 1; the room reference is a JSON array, [room_id in room_lookup]
    cannot hash it and [combine_data] raises a [TypeError]. *)
Lemma C1_counterexample :
  structurally_valid list_ref_students [] ∧
  existsb (unassigned []) list_ref_students = true ∧
  combine_data list_ref_students [] = Raise (TypeError "unhashable type: 'list'").
Proof. evaluate. Qed.

(** C2, as amended: for structurally valid students and rooms whose ids
    and room references are scalars, the output holds one record per room,
    at the room's own position, with the room's id and name and with the
    students assigned to it in the order of the students list (none of them:
    an empty list); whatever follows is the single record of the unassigned
    students, again in the order of the students list. *)
Theorem C2_output_order (students rooms : list value) :
  structurally_valid students rooms → scalar_keys students rooms →
  ∃ out, combine_data students rooms = Ok out ∧
    (∀ i room, rooms !! i = Some room →
       out !! i =
         Some (VDict [("id", field "id" VNone room);
                      ("name", field "name" (VStr "Unknown Room") room);
                      ("students",
                       VList (project <$> filter (λ s, assigned_to room s) students))])) ∧
    (∀ i record, length rooms ≤ i → out !! i = Some record →
       i = length rooms ∧ existsb (unassigned rooms) students = true ∧
       record =
         VDict [("id", VNone); ("name", VStr "Unassigned Students");
                ("students",
                 VList (project <$> filter (λ s, unassigned rooms s) students))]).
Proof.
  intros Hvalid (HsR & HsS & Href).
  exists (combine_spec students rooms).
  split; [by apply combine_data_correct|].
  unfold combine_spec. rewrite unassigned_bucket_cases. split.
  - intros i room Hi. rewrite lookup_app_l
      by (rewrite length_fmap; by eapply lookup_lt_Some).
    by rewrite list_lookup_fmap, Hi.
  - intros i record Hle. rewrite lookup_app_r by (by rewrite length_fmap).
    rewrite length_fmap.
    destruct (existsb (unassigned rooms) students); [|by rewrite lookup_nil].
    destruct (i - length rooms) as [|n] eqn:Hn; simpl; [|by rewrite lookup_nil].
    intros [= <-]. split_and!; [lia | done | done].
Qed.

Lemma C2_output_order_witness :
  structurally_valid sample_students sample_rooms ∧
  scalar_keys sample_students sample_rooms ∧
  ∃ out, combine_data sample_students sample_rooms = Ok out ∧
    out !! 1 = Some (VDict [("id", VInt 2); ("name", VStr "102");
                            ("students", VList [])]).
Proof.
  assert (structurally_valid sample_students sample_rooms) as Hv by evaluate.
  assert (scalar_keys sample_students sample_rooms) as Hs by evaluate.
  split; [exact Hv|]. split; [exact Hs|].
  destruct (C2_output_order sample_students sample_rooms Hv Hs) as (out & Hout & Hrooms & _).
  exists out. split; [exact Hout|].
  exact (Hrooms 1 (room_record 2 "102") eq_refl).
Defined.

(** C2 as stated fails: the rooms below are structurally valid (one record
    with the keys id and name, a single id), but the id is a JSON array;
    [set(room_ids)] cannot hash it, and there is no output at all. *)
Lemma C2_counterexample :
  structurally_valid sample_students list_id_rooms ∧
  combine_data sample_students list_id_rooms =
    Raise (ValidationError "Input validation failed: unhashable type: 'list'").
Proof. evaluate. Qed.

(** ** Changing one record of a list *)

Lemma Dict_get_set {V} (k k' : string) (v : V) (d : Dict.t V) :
  Dict.get k (Dict.set k' v d) = if decide (k = k') then Some v else Dict.get k d.
Proof.
  induction d as [|[k0 v0] d IH]; simpl.
  - by repeat case_decide.
  - repeat (case_decide; simpl; simplify_eq); try done.
Qed.

Lemma Dict_get_remove {V} (k k' : string) (d : Dict.t V) :
  Dict.get k (Dict.remove k' d) = if decide (k = k') then None else Dict.get k d.
Proof.
  induction d as [|[k0 v0] d IH]; simpl.
  - by case_decide.
  - repeat (case_decide; simpl; simplify_eq); try done.
Qed.

Lemma map_result_ext_at {A B} (f : A → result B) (pre post : list A) (x x' : A) :
  f x' = f x → map_result f (pre ++ x' :: post) = map_result f (pre ++ x :: post).
Proof.
  intros Hx. induction pre as [|y pre IH]; simpl; [by rewrite Hx|].
  by rewrite IH.
Qed.

Lemma for_each_ext_at {A S} (body : S → A → result S) (pre post : list A)
    (x x' : A) (s : S) :
  (∀ s, body s x' = body s x) →
  for_each body (pre ++ x' :: post) s = for_each body (pre ++ x :: post) s.
Proof.
  intros Hx. rewrite !for_each_app. destruct (for_each body pre s); [|done].
  simpl. by rewrite Hx.
Qed.

Lemma validate_records_ext_at (label : string) (i : nat) (pre post : list value)
    (x x' : value) :
  is_dict x' = is_dict x → has_key "id" x' = has_key "id" x →
  has_key "name" x' = has_key "name" x →
  validate_records label i (pre ++ x' :: post) =
  validate_records label i (pre ++ x :: post).
Proof.
  intros Hd Hi Hn. revert i.
  induction pre as [|y pre IH]; intros i; simpl; [by rewrite Hd, Hi, Hn|].
  by rewrite IH.
Qed.

Lemma room_cleared_set (d : Dict.t value) : room_cleared d (Dict.set "room" VNone d).
Proof.
  split; [intros k Hk|]; rewrite Dict_get_set; by case_decide.
Qed.

Lemma room_cleared_remove (d : Dict.t value) : room_cleared d (Dict.remove "room" d).
Proof.
  split; [intros k Hk|]; rewrite Dict_get_remove; by case_decide.
Qed.

Lemma existsb_ids_of (ref : value) (rooms : list value) :
  existsb (λ room, py_eq ref (field "id" VNone room)) rooms = false →
  existsb (py_eq ref) (ids_of rooms) = false.
Proof.
  induction rooms as [|r rooms IH]; simpl; [done|].
  intros [Hr Hrest]%orb_false_iff. rewrite ids_of_cons.
  destruct (is_not_None (field "id" VNone r)); simpl; [|by apply IH].
  by rewrite Hr, IH.
Qed.

Lemma combine_data_room_cleared (pre post : list value) (d d' : Dict.t value)
    (rooms : list value) (ref : value) :
  Dict.get "room" d = Some ref → scalar ref →
  existsb (λ room, py_eq ref (field "id" VNone room)) rooms = false →
  room_cleared d d' →
  combine_data (pre ++ VDict d' :: post) rooms =
  combine_data (pre ++ VDict d :: post) rooms.
Proof.
  intros Hget Hscalar Hnomatch [Hsame Hnone].
  assert (validate_input_data (pre ++ VDict d' :: post) rooms =
          validate_input_data (pre ++ VDict d :: post) rooms) as Hval.
  { unfold validate_input_data, validate_students_data, _validate_business_rules,
      non_null_ids.
    rewrite (validate_records_ext_at _ _ pre post (VDict d) (VDict d'));
      [|done|unfold has_key, Dict.mem; by rewrite Hsame..].
    rewrite (map_result_ext_at _ pre post (VDict d) (VDict d')); [done|].
    simpl. by rewrite Hsame. }
  unfold combine_data. rewrite Hval.
  destruct (validate_input_data (pre ++ VDict d :: post) rooms) as [b|e] eqn:Hv;
    [|done].
  simpl. apply validate_input_data_Ok in Hv as (Hvalid & _ & HsR).
  apply structurally_valid_dicts in Hvalid as [_ HdR].
  destruct (_build_room_lookup_spec rooms HdR HsR) as (m & -> & Hm). simpl.
  unfold _group_students_by_room.
  rewrite (for_each_ext_at _ pre post (VDict d) (VDict d')); [done|].
  intros [sbr un]. unfold group_student. simpl.
  rewrite Hnone, !Hsame, Hget by done. simpl.
  destruct (is_not_None ref) eqn:Hnn; [|done].
  rewrite hash_key_scalar by done. simpl.
  destruct (m !! key ref) as [r|] eqn:Hr; [|done].
  assert (key ref ∈ room_keys rooms) as Hin by (apply Hm; eauto).
  apply key_elem_of_ids in Hin; [|done|by apply scalar_ids_of].
  by rewrite existsb_ids_of in Hin.
Qed.

(** C3, as amended: take a student whose room reference is a scalar (null,
    a boolean, an integer or a string) equal to no room id.  Setting the
    reference to null, or removing the [room] key, leaves the result of
    [combine_data] unchanged, whatever the other records are; and on
    structurally valid input with scalar ids and references the dangling
    reference raises no error. *)
Theorem C3_dangling_reference (pre post : list value) (d : Dict.t value)
    (rooms : list value) (ref : value) :
  Dict.get "room" d = Some ref → scalar ref →
  existsb (λ room, py_eq ref (field "id" VNone room)) rooms = false →
  combine_data (pre ++ VDict (Dict.set "room" VNone d) :: post) rooms =
    combine_data (pre ++ VDict d :: post) rooms ∧
  combine_data (pre ++ VDict (Dict.remove "room" d) :: post) rooms =
    combine_data (pre ++ VDict d :: post) rooms ∧
  (structurally_valid (pre ++ VDict d :: post) rooms →
   scalar_keys (pre ++ VDict d :: post) rooms →
   ∃ out, combine_data (pre ++ VDict d :: post) rooms = Ok out).
Proof.
  intros Hget Hscalar Hnomatch. split_and!.
  - eapply combine_data_room_cleared; eauto using room_cleared_set.
  - eapply combine_data_room_cleared; eauto using room_cleared_remove.
  - intros Hvalid (HsR & HsS & Href). eexists. by apply combine_data_correct.
Qed.

Lemma C3_dangling_reference_witness :
  Dict.get "room" (student_fields 2 "Bob" (VInt 99)) = Some (VInt 99) ∧
  scalar (VInt 99) ∧
  existsb (λ room, py_eq (VInt 99) (field "id" VNone room)) sample_rooms = false ∧
  combine_data
    [student_record 1 "Alice" (VInt 1);
     VDict (Dict.set "room" VNone (student_fields 2 "Bob" (VInt 99)));
     room_record 3 "Carol"] sample_rooms =
  combine_data sample_students sample_rooms.
Proof.
  split; [reflexivity|]. split; [exact I|]. split; [reflexivity|].
  destruct (C3_dangling_reference [student_record 1 "Alice" (VInt 1)]
              [room_record 3 "Carol"] (student_fields 2 "Bob" (VInt 99))
              sample_rooms (VInt 99) eq_refl I eq_refl) as [Hset _].
  exact Hset.
Defined.

(** C3 as stated fails: with no room at all the reference [[1]] matches no
    room id; with [room = null] the student lands in the unassigned bucket,
    with the reference in place [combine_data] raises a [TypeError]. *)
Lemma C3_counterexample :
  structurally_valid list_ref_students [] ∧
  existsb (λ room, py_eq (VList [VInt 1]) (field "id" VNone room)) [] = false ∧
  combine_data [VDict (Dict.set "room" VNone (student_fields 1 "Alice" (VList [VInt 1])))] [] =
    Ok [VDict [("id", VNone); ("name", VStr "Unassigned Students");
               ("students", VList [VDict [("id", VInt 1); ("name", VStr "Alice")]])]] ∧
  combine_data list_ref_students [] = Raise (TypeError "unhashable type: 'list'").
Proof. evaluate. Qed.

(** ** Failures after validation *)

Lemma group_student_Raise (room_lookup : gmap pykey value)
    (acc : gmap pykey (list value) * list value) (s : value) (e : exn) :
  is_dict s → group_student room_lookup acc s = Raise e → ∃ m, e = TypeError m.
Proof.
  destruct acc as [sbr un]. intros Hd. unfold group_student.
  rewrite !py_get_dict by done. simpl.
  destruct (is_not_None (field "room" VNone s)); simpl; [|done].
  destruct (hash_key (field "room" VNone s)) as [k|e'] eqn:Hk; simpl.
  - by destruct (room_lookup !! k).
  - intros [= <-]. destruct (field "room" VNone s); simpl in Hk; try done;
      injection Hk as <-; eauto.
Qed.

Lemma _group_students_by_room_Raise (students : list value)
    (room_lookup : gmap pykey value) (e : exn) :
  Forall (λ s, is_dict s) students →
  _group_students_by_room students room_lookup = Raise e → ∃ m, e = TypeError m.
Proof.
  unfold _group_students_by_room. generalize (∅ : gmap pykey (list value), @nil value).
  intros acc0 Hd. revert acc0.
  induction Hd as [|s students Hs _ IH]; intros acc0 Hraise; [done|].
  rewrite for_each_cons in Hraise.
  apply bind_Raise in Hraise as [Hstep | (acc & _ & Hrest)].
  - by eapply group_student_Raise.
  - by eapply IH.
Qed.

(** Once the input has passed validation, [combine_data] returns, or fails
    on a room reference that cannot be hashed. *)
Lemma combine_data_validated (students rooms : list value) (b : bool) :
  validate_input_data students rooms = Ok b →
  (∃ out, combine_data students rooms = Ok out) ∨
  (∃ m, combine_data students rooms = Raise (TypeError m)).
Proof.
  intros Hv. destruct (validate_input_data_Ok _ _ _ Hv) as (Hvalid & HsS & HsR).
  destruct (structurally_valid_dicts _ _ Hvalid) as [HdS HdR].
  unfold combine_data. rewrite Hv. simpl.
  destruct (_build_room_lookup_spec rooms HdR HsR) as (m & -> & Hm). simpl.
  destruct (_group_students_by_room students m) as [[sbr un]|e] eqn:Hg; simpl.
  - rewrite _build_combined_rooms_spec by done. simpl. left.
    destruct un; eauto.
  - right. apply _group_students_by_room_Raise in Hg as [msg ->]; eauto.
Qed.

(** C4, as amended: on input that passes the structural key checks,
    [combine_data] raises a [ValidationError] exactly when some non-null
    room id or student id occurs twice or cannot be hashed (a list or a
    dictionary).  Duplicate room ids are reported first, as "Duplicate room
    IDs found"; duplicate student ids as "Duplicate student IDs found"; a
    room id that cannot be hashed as "Input validation failed: unhashable
    type: ...", which names no collection.  A raised error carries no
    output. *)
Theorem C4_duplicate_ids (students rooms : list value) :
  Forall (λ r, record_ok r) students → Forall (λ r, record_ok r) rooms →
  (hashable_ids rooms → has_duplicates (ids_of rooms) = true →
   combine_data students rooms = Raise (ValidationError "Duplicate room IDs found")) ∧
  (hashable_ids rooms → has_duplicates (ids_of rooms) = false →
   hashable_ids students → has_duplicates (ids_of students) = true →
   combine_data students rooms = Raise (ValidationError "Duplicate student IDs found")) ∧
  ((∃ m, combine_data students rooms = Raise (ValidationError m)) ↔
   has_duplicates (ids_of rooms) = true ∨ has_duplicates (ids_of students) = true ∨
   ¬ hashable_ids rooms ∨ ¬ hashable_ids students) ∧
  (¬ hashable_ids rooms →
   ∃ v, v ∈ ids_of rooms ∧ scalar v = false ∧
     combine_data students rooms =
       Raise (ValidationError
                ("Input validation failed: unhashable type: '" +:+ type_name v +:+ "'"))).
Proof.
  intros HS HR. unfold hashable_ids.
  pose proof (validate_input_data_spec students rooms HS HR) as Hspec.
  pose proof (first_unhashable_None (ids_of rooms)) as HuR.
  pose proof (first_unhashable_None (ids_of students)) as HuS.
  assert (∀ e, validate_input_data students rooms = Raise e →
               combine_data students rooms = Raise e) as Hfail.
  { intros e He. unfold combine_data. by rewrite He. }
  split_and!.
  - intros Hh Hd. apply Hfail. rewrite Hspec, (proj2 HuR Hh). by rewrite Hd.
  - intros HhR HdR HhS HdS. apply Hfail.
    rewrite Hspec, (proj2 HuR HhR), HdR, (proj2 HuS HhS). by rewrite HdS.
  - split.
    + intros [m Hm].
      destruct (validate_input_data students rooms) as [b|e] eqn:Hv.
      { destruct (combine_data_validated _ _ _ Hv) as [[out Hout]|[msg Hmsg]];
          congruence. }
      clear Hfail Hm Hv.
      destruct (first_unhashable (ids_of rooms)) eqn:HfR.
      { right; right; left. intros Hh%HuR. done. }
      destruct (has_duplicates (ids_of rooms)); [by left|].
      destruct (first_unhashable (ids_of students)) eqn:HfS.
      { right; right; right. intros Hh%HuS. done. }
      destruct (has_duplicates (ids_of students)); [by right; left|done].
    + intros Hcases. rewrite Hspec in Hfail.
      destruct (first_unhashable (ids_of rooms)) eqn:HfR; [eauto|].
      destruct (has_duplicates (ids_of rooms)); [eauto|].
      destruct (first_unhashable (ids_of students)) eqn:HfS; [eauto|].
      destruct (has_duplicates (ids_of students)); [eauto|].
      destruct Hcases as [?|[?|[Hn|Hn]]]; try done; destruct Hn; naive_solver.
  - intros Hn. destruct (first_unhashable (ids_of rooms)) as [v|] eqn:HfR.
    + apply first_unhashable_Some in HfR as [Hin Hv]. exists v.
      split_and!; [done..|]. apply Hfail. by rewrite Hspec.
    + destruct Hn. by apply HuR.
Qed.

Lemma C4_duplicate_ids_witness :
  Forall (λ r, record_ok r) sample_students ∧ Forall (λ r, record_ok r) twin_rooms ∧
  hashable_ids twin_rooms ∧ has_duplicates (ids_of twin_rooms) = true ∧
  combine_data sample_students twin_rooms =
    Raise (ValidationError "Duplicate room IDs found").
Proof.
  assert (Forall (λ r, record_ok r) sample_students) as HS by evaluate.
  assert (Forall (λ r, record_ok r) twin_rooms) as HR by evaluate.
  assert (hashable_ids twin_rooms) as Hh by evaluate.
  split; [exact HS|]. split; [exact HR|]. split; [exact Hh|]. split; [reflexivity|].
  destruct (C4_duplicate_ids sample_students twin_rooms HS HR) as [Hrooms _].
  exact (Hrooms Hh eq_refl).
Defined.

(** C4 as stated fails: the input below passes the structural key checks
    and holds a single non-null id, so no id occurs twice; the id is a JSON
    array, [set(room_ids)] raises a [TypeError], and [validate_input_data]
    turns it into a [ValidationError] that names no collection. *)
Lemma C4_counterexample :
  Forall (λ r, record_ok r) (@nil value) ∧ Forall (λ r, record_ok r) list_id_rooms ∧
  has_duplicates (ids_of list_id_rooms) = false ∧
  has_duplicates (ids_of []) = false ∧
  combine_data [] list_id_rooms =
    Raise (ValidationError "Input validation failed: unhashable type: 'list'").
Proof. evaluate. Qed.

(** C5, as amended: a [ValidationError] raised by the validation code
    leaves [validate_input_data] and [combine_data] unchanged;
    [CLIController._process_data] then wraps it in a new [ValidationError]
    whose message is "Data processing failed: " followed by the original
    message, and that is the error the error-reporting step prints. *)
Theorem C5_validation_error_wrapped (students rooms : list value) (e : exn) :
  validate_input_data students rooms = Raise e →
  ∃ m, e = ValidationError m ∧
    combine_data students rooms = Raise (ValidationError m) ∧
    CLIController._process_data students rooms =
      Raise (ValidationError ("Data processing failed: " +:+ m)) ∧
    ∀ registry output_format output_file,
      CLIController.run_loaded registry students rooms output_format output_file =
      (1, ["❌ Error: Data processing failed: " +:+ m], []).
Proof.
  intros He. destruct (validate_input_data_Raise _ _ _ He) as [m ->].
  exists m. split; [done|].
  assert (combine_data students rooms = Raise (ValidationError m)) as Hc
    by (unfold combine_data; by rewrite He).
  split; [done|]. unfold CLIController.run_loaded, CLIController._process_data.
  rewrite Hc. by simpl.
Qed.

Lemma C5_validation_error_wrapped_witness :
  validate_input_data sample_students twin_rooms =
    Raise (ValidationError "Duplicate room IDs found") ∧
  CLIController._process_data sample_students twin_rooms =
    Raise (ValidationError "Data processing failed: Duplicate room IDs found").
Proof.
  split; [reflexivity|].
  destruct (C5_validation_error_wrapped sample_students twin_rooms
              (ValidationError "Duplicate room IDs found") eq_refl)
    as (m & Hm & _ & Hp & _).
  injection Hm as <-. exact Hp.
Defined.

(** C5 as stated fails: for two rooms with the same id the validation code
    raises "Duplicate room IDs found"; what leaves [_process_data], and so
    what the error-reporting step receives, is another error with another
    message. *)
Lemma C5_counterexample :
  validate_input_data sample_students twin_rooms =
    Raise (ValidationError "Duplicate room IDs found") ∧
  CLIController._process_data sample_students twin_rooms =
    Raise (ValidationError "Data processing failed: Duplicate room IDs found") ∧
  CLIController._process_data sample_students twin_rooms ≠
    Raise (ValidationError "Duplicate room IDs found").
Proof. split; [reflexivity|]. split; [reflexivity|]. vm_compute. discriminate. Qed.

(** C7: asking for a format whose lower-cased name is not in the registry
    raises [UnsupportedFormatError] with the name as it was asked for and
    the registered names in registration order; "yaml" against the default
    registry lists "json" and "xml". *)
Theorem C7_unsupported_format (registry : Dict.t exporter_class) (format_name : string) :
  Dict.get (lower format_name) registry = None →
  DataExporterFactory.create_exporter registry format_name =
    Raise (UnsupportedFormatError format_name (Dict.keys registry)) ∧
  DataExporterFactory.create_exporter DataExporterFactory._exporters "yaml" =
    Raise (UnsupportedFormatError "yaml" ["json"; "xml"]) ∧
  str_exn (UnsupportedFormatError "yaml" ["json"; "xml"]) =
    "Unsupported format 'yaml'. Supported formats: json, xml".
Proof.
  intros Hget. unfold DataExporterFactory.create_exporter.
  rewrite Hget. split_and!; reflexivity.
Qed.

Lemma C7_unsupported_format_witness :
  Dict.get (lower "YAML") DataExporterFactory._exporters = None ∧
  DataExporterFactory.create_exporter DataExporterFactory._exporters "YAML" =
    Raise (UnsupportedFormatError "YAML" ["json"; "xml"]).
Proof.
  split; [reflexivity|].
  destruct (C7_unsupported_format DataExporterFactory._exporters "YAML" eq_refl)
    as [H _].
  exact H.
Defined.

(** ** Every student lands in exactly one bucket *)

Lemma concat_fmap_app_Permutation {A B} (f g : A → list B) (l : list A) :
  concat ((λ x, f x ++ g x) <$> l) ≡ₚ concat (f <$> l) ++ concat (g <$> l).
Proof.
  induction l as [|x l IH]; simpl; [done|].
  rewrite IH, <- !app_assoc. apply Permutation_app_head.
  rewrite !app_assoc. apply Permutation_app_tail, Permutation_app_comm.
Qed.

Lemma fmap_concat {A B} (f : A → B) (ls : list (list A)) :
  f <$> concat ls = concat ((λ l : list A, f <$> l) <$> ls).
Proof. induction ls as [|l ls IH]; simpl; [done|]. by rewrite fmap_app, IH. Qed.

Lemma length_concat_sum {A} (ls : list (list A)) :
  length (concat ls) = sum_list (length <$> ls).
Proof. induction ls as [|l ls IH]; simpl; [done|]. by rewrite length_app, IH. Qed.

Lemma filter_existsb_false {A} (p : A → bool) (l : list A) :
  existsb p l = false → filter (λ x, p x) l = [].
Proof.
  induction l as [|x l IH]; simpl; [done|].
  intros [Hx Hl]%orb_false_iff. rewrite filter_cons, Hx, IH by done. done.
Qed.

Lemma claimed_by_none {A B} (p : A → B → bool) (rooms : list A) (s : B) :
  filter (λ r, p r s) rooms = [] →
  concat ((λ r, if p r s then [s] else []) <$> rooms) = [] ∧
  existsb (λ r, p r s) rooms = false.
Proof.
  induction rooms as [|r rooms IH]; [done|].
  rewrite filter_cons, fmap_cons. cbn [concat existsb].
  destruct (p r s); [done|]. intros Hnil. by destruct (IH Hnil) as [-> ->].
Qed.

(** The rooms that claim the student [s], each once. *)
Lemma claimed_once {A B} (p : A → B → bool) (rooms : list A) (s : B) :
  length (filter (λ r, p r s) rooms) ≤ 1 →
  concat ((λ r, if p r s then [s] else []) <$> rooms) ++
    (if negb (existsb (λ r, p r s) rooms) then [s] else []) = [s].
Proof.
  induction rooms as [|r rooms IH]; [done|].
  rewrite filter_cons, fmap_cons. cbn [concat existsb].
  destruct (p r s) eqn:Hr.
  - intros Hlen. destruct (claimed_by_none p rooms s) as [-> _]; [|done].
    apply nil_length_inv. simpl in Hlen. lia.
  - apply IH.
Qed.

Lemma partition_Permutation {A B} (p : A → B → bool) (rooms : list A)
    (students : list B) :
  Forall (λ s, length (filter (λ r, p r s) rooms) ≤ 1) students →
  concat ((λ r, filter (λ s, p r s) students) <$> rooms) ++
    filter (λ s, negb (existsb (λ r, p r s) rooms)) students ≡ₚ students.
Proof.
  induction 1 as [|s students Hs _ IH].
  - rewrite filter_nil, app_nil_r. induction rooms as [|r rooms IHr]; [done|].
    by rewrite fmap_cons.
  - set (claims := concat ((λ r, if p r s then [s] else []) <$> rooms)).
    set (rest := concat ((λ r, filter (λ s0, p r s0) students) <$> rooms)).
    assert (concat ((λ r, filter (λ s0, p r s0) (s :: students)) <$> rooms) ≡ₚ
            claims ++ rest) as ->.
    { unfold claims, rest. rewrite <- concat_fmap_app_Permutation.
      apply reflexive_eq. f_equal.
      apply list_fmap_ext. intros ? r _. rewrite filter_cons.
      by destruct (p r s). }
    rewrite filter_cons.
    pose proof (claimed_once p rooms s Hs) as Hclaim. fold claims in Hclaim.
    transitivity ((claims ++ (if negb (existsb (λ r, p r s) rooms) then [s] else []))
                  ++ rest ++ filter (λ s0, negb (existsb (λ r, p r s0) rooms)) students).
    + destruct (negb (existsb (λ r, p r s) rooms)); simpl.
      * rewrite <- !app_assoc. apply Permutation_app_head. simpl.
        symmetry. apply Permutation_middle.
      * by rewrite app_nil_r, <- !app_assoc.
    + rewrite Hclaim. simpl. constructor. exact IH.
Qed.

Lemma assigned_to_in_rooms (rooms : list value) (r s : value) :
  Forall (λ r, scalar (field "id" VNone r)) rooms →
  scalar (field "room" VNone s) → r ∈ rooms → assigned_to r s →
  key (field "room" VNone s) ∈ room_keys rooms.
Proof.
  intros HsR Hs Hin Has.
  assert (in_rooms rooms s) as Hir.
  { rewrite in_rooms_existsb by done. apply Is_true_eq_left, existsb_exists.
    exists r. split; [by apply list_elem_of_In | by apply Is_true_eq_true]. }
  unfold in_rooms in Hir. apply andb_prop_elim in Hir as [_ Hir].
  by apply bool_decide_unpack in Hir.
Qed.

Lemma assigned_at_most_once (rooms : list value) (s : value) :
  Forall (λ r, scalar (field "id" VNone r)) rooms →
  scalar (field "room" VNone s) → NoDup (room_keys rooms) →
  length (filter (λ r, assigned_to r s) rooms) ≤ 1.
Proof.
  intros HsR Hs. induction HsR as [|r rooms Hr HsR IH];
    [intros _; rewrite filter_nil; simpl; lia|].
  unfold room_keys. rewrite ids_of_cons, filter_cons. intros Hnd.
  destruct (assigned_to r s) eqn:Has; simpl.
  - apply andb_prop in Has as [Hnn Heq]. rewrite py_eq_key in Heq by done.
    apply bool_decide_eq_true in Heq.
    destruct (is_not_None (field "id" VNone r)) eqn:Hid.
    + rewrite fmap_cons in Hnd. apply NoDup_cons in Hnd as [Hnotin _].
      rewrite filter_existsb_false; [simpl; lia|].
      apply not_true_iff_false. intros (r' & Hin%list_elem_of_In & Hr')%existsb_exists.
      apply Hnotin. rewrite <- Heq.
      eapply assigned_to_in_rooms; eauto.
    + destruct (field "id" VNone r); try done.
      apply key_None in Heq; [|done]. by rewrite Heq in Hnn.
  - apply IH. by destruct (is_not_None (field "id" VNone r)); [apply NoDup_cons in Hnd as [_ ?]|].
Qed.

Lemma students_of_combine_spec (students rooms : list value) :
  concat (students_of <$> combine_spec students rooms) =
  project <$>
    (concat ((λ r, filter (λ s, assigned_to r s) students) <$> rooms) ++
     filter (λ s, unassigned rooms s) students).
Proof.
  unfold combine_spec. rewrite fmap_app, concat_app, fmap_app, fmap_concat. f_equal.
  - f_equal. rewrite <- !list_fmap_compose. by apply list_fmap_ext.
  - unfold unassigned_bucket.
    destruct (filter (λ s, unassigned rooms s) students); simpl; [done|].
    by rewrite app_nil_r.
Qed.

(** C9: when [combine_data] succeeds, the students lists of the output,
    taken together, hold the [{id, name}] entries of the input students,
    each once (a permutation of the projected input); so their lengths add
    up to the number of students; and every entry has the keys id and name
    only, the room reference is gone. *)
Theorem C9_partition (students rooms out : list value) :
  combine_data students rooms = Ok out →
  concat (students_of <$> out) ≡ₚ project <$> students ∧
  sum_list (length <$> (students_of <$> out)) = length students ∧
  Forall (λ entry, ∃ id name, entry = VDict [("id", id); ("name", name)])
    (concat (students_of <$> out)).
Proof.
  intros (Hvalid & HsR & HsS & Href & ->)%combine_data_Ok.
  assert (concat (students_of <$> combine_spec students rooms) ≡ₚ project <$> students)
    as Hperm.
  { rewrite students_of_combine_spec. apply fmap_Permutation.
    apply (partition_Permutation assigned_to).
    destruct Hvalid as (_ & _ & HdR & _).
    apply has_duplicates_NoDup in HdR; [|by apply scalar_ids_of].
    eapply Forall_impl; [exact Href|]. intros s Hs.
    by apply assigned_at_most_once. }
  split_and!; [done|..].
  - by rewrite <- length_concat_sum, Hperm, length_fmap.
  - rewrite students_of_combine_spec. apply Forall_fmap, Forall_forall.
    intros s _. unfold project. simpl. eauto.
Qed.

Lemma C9_partition_witness :
  combine_data sample_students sample_rooms =
    Ok (combine_spec sample_students sample_rooms) ∧
  sum_list (length <$> (students_of <$> combine_spec sample_students sample_rooms)) = 3.
Proof.
  split; [reflexivity|].
  destruct (C9_partition sample_students sample_rooms
              (combine_spec sample_students sample_rooms) eq_refl) as (_ & Hsum & _).
  exact Hsum.
Defined.

(** ** Rooms with a null id *)

Lemma map_result_app {A B} (f : A → result B) (l1 l2 : list A) :
  map_result f (l1 ++ l2) =
  a ← map_result f l1; b ← map_result f l2; Ok (a ++ b).
Proof.
  induction l1 as [|x l1 IH]; simpl.
  - by destruct (map_result f l2).
  - destruct (f x); simpl; [|done]. rewrite IH.
    destruct (map_result f l1); simpl; [|done].
    by destruct (map_result f l2).
Qed.

Lemma non_null_ids_null_room (pre post : list value) (d : Dict.t value) :
  Dict.get "id" d = Some VNone →
  non_null_ids (pre ++ VDict d :: post) = non_null_ids (pre ++ post).
Proof.
  intros Hid. unfold non_null_ids. rewrite !map_result_app. simpl. rewrite Hid. simpl.
  destruct (map_result _ pre) as [a|]; simpl; [|done].
  destruct (map_result _ post) as [b|]; simpl; [|done].
  by rewrite !filter_app, filter_cons.
Qed.

Lemma assigned_to_null_id (d : Dict.t value) (s : value) :
  Dict.get "id" d = Some VNone → assigned_to (VDict d) s = false.
Proof.
  intros Hid. unfold assigned_to. simpl. rewrite Hid. simpl.
  by destruct (field "room" VNone s).
Qed.

(** C10: a room record whose id is present and null
    - passes the structural check and is left out of the ids that the
      duplicate check and the room lookup see, so that adding it to valid
      input keeps the input valid and the lookup the same;
    - is assigned no student;
    - is emitted at its position with a null id, its name and an empty
      students list (first part, for any input on which [combine_data]
      succeeds).
    The last part is an output with two such records, next to the
    synthetic unassigned bucket. *)
Theorem C10_null_id_room (students pre post : list value) (d : Dict.t value)
    (name : value) :
  Dict.get "id" d = Some VNone → Dict.get "name" d = Some name →
  (record_ok (VDict d) = true ∧
   non_null_ids (pre ++ VDict d :: post) = non_null_ids (pre ++ post) ∧
   _validate_business_rules students (pre ++ VDict d :: post) =
     _validate_business_rules students (pre ++ post) ∧
   (validate_input_data students (pre ++ post) = Ok true →
    validate_input_data students (pre ++ VDict d :: post) = Ok true) ∧
   _build_room_lookup (pre ++ VDict d :: post) = _build_room_lookup (pre ++ post) ∧
   (∀ s, assigned_to (VDict d) s = false) ∧
   (∀ out, combine_data students (pre ++ VDict d :: post) = Ok out →
      out !! length pre =
        Some (VDict [("id", VNone); ("name", name); ("students", VList [])]))) ∧
  combine_data sample_students [null_room "Lobby"; room_record 1 "101"; null_room "Attic"] =
    Ok [VDict [("id", VNone); ("name", VStr "Lobby"); ("students", VList [])];
        VDict [("id", VInt 1); ("name", VStr "101");
               ("students", VList [VDict [("id", VInt 1); ("name", VStr "Alice")]])];
        VDict [("id", VNone); ("name", VStr "Attic"); ("students", VList [])];
        VDict [("id", VNone); ("name", VStr "Unassigned Students");
               ("students", VList [VDict [("id", VInt 2); ("name", VStr "Bob")];
                                   VDict [("id", VInt 3); ("name", VStr "Carol")]])]].
Proof.
  intros Hid Hname. split; [|reflexivity].
  assert (record_ok (VDict d) = true) as Hok.
  { unfold record_ok, has_key, Dict.mem. by rewrite Hid, Hname. }
  assert (ids_of (pre ++ VDict d :: post) = ids_of (pre ++ post)) as Hids.
  { rewrite !ids_of_app, ids_of_cons. simpl. by rewrite Hid. }
  split_and!.
  - done.
  - by apply non_null_ids_null_room.
  - unfold _validate_business_rules. by rewrite non_null_ids_null_room.
  - intros (Hvalid & HsS & HsR)%validate_input_data_Ok.
    destruct Hvalid as (HS & HR & HdR & HdS).
    apply Forall_app in HR as [Hpre Hpost].
    rewrite validate_input_data_spec;
      [|done|apply Forall_app; split; [done|constructor; [by rewrite Hok|done]]].
    rewrite Hids.
    rewrite (proj2 (first_unhashable_None _)) by by apply scalar_ids_of.
    rewrite HdR.
    rewrite (proj2 (first_unhashable_None _)) by by apply scalar_ids_of.
    by rewrite HdS.
  - unfold _build_room_lookup. rewrite !for_each_app.
    destruct (for_each add_room pre ∅) as [m|]; simpl; [|done].
    unfold add_room at 2. simpl. by rewrite Hid.
  - intros s. by apply assigned_to_null_id.
  - intros out (_ & _ & _ & _ & ->)%combine_data_Ok.
    unfold combine_spec.
    rewrite lookup_app_l by (rewrite length_fmap, length_app; simpl; lia).
    rewrite list_lookup_fmap, list_lookup_middle by done. simpl.
    unfold combined_room. simpl. rewrite Hid, Hname. simpl.
    rewrite (filter_existsb_false (assigned_to (VDict d))); [done|].
    apply not_true_iff_false. intros (s & _ & Hs)%existsb_exists.
    by rewrite assigned_to_null_id in Hs.
Qed.

Lemma C10_null_id_room_witness :
  Dict.get "id" [("id", VNone); ("name", VStr "Lobby")] = Some VNone ∧
  Dict.get "name" [("id", VNone); ("name", VStr "Lobby")] = Some (VStr "Lobby") ∧
  validate_input_data sample_students [room_record 1 "101"; null_room "Lobby"] = Ok true.
Proof.
  split; [reflexivity|]. split; [reflexivity|].
  destruct (C10_null_id_room sample_students [room_record 1 "101"] []
              [("id", VNone); ("name", VStr "Lobby")] (VStr "Lobby") eq_refl eq_refl)
    as [(_ & _ & _ & Hvalid & _) _].
  exact (Hvalid eq_refl).
Defined.

(** ** The exporters *)

Lemma validate_output_records_spec (i : nat) (data : list value) :
  validate_output_records i data =
  match first_complaint i data with
  | Some m => Raise (DataExportError m None)
  | None => Ok ()
  end.
Proof.
  revert i. induction data as [|r data IH]; intros i; simpl; [done|].
  unfold complaint, first_missing_field.
  destruct (is_dict r); simpl; [|done].
  destruct (has_key "id" r); simpl; [|done].
  destruct (has_key "name" r); simpl; [|done].
  destruct (has_key "students" r); simpl; [|done].
  apply IH.
Qed.

Lemma complaint_None (i : nat) (record : value) :
  complaint i record = None ↔ export_record_ok record.
Proof.
  unfold complaint, first_missing_field, export_record_ok.
  destruct (is_dict record), (has_key "id" record), (has_key "name" record),
    (has_key "students" record); simpl; naive_solver.
Qed.

Lemma first_complaint_None (i : nat) (data : list value) :
  first_complaint i data = None ↔ Forall (λ r, export_record_ok r) data.
Proof.
  revert i. induction data as [|r data IH]; intros i; simpl;
    [by split; [constructor|]|].
  rewrite Forall_cons, <- (IH (S i)), <- (complaint_None i).
  destruct (complaint i r); naive_solver.
Qed.

Lemma first_complaint_Some (i : nat) (data : list value) (m : string) :
  first_complaint i data = Some m →
  ∃ j r, data !! j = Some r ∧ export_record_ok r = false ∧
         complaint (i + j) r = Some m ∧
         Forall (λ r, export_record_ok r) (take j data).
Proof.
  revert i. induction data as [|r data IH]; intros i; simpl; [done|].
  destruct (complaint i r) as [m'|] eqn:Hc.
  - intros [= ->]. exists 0, r. rewrite Nat.add_0_r. split_and!; try done.
    apply not_true_iff_false. intros Hok%Is_true_eq_left%(complaint_None i).
    congruence.
  - intros (j & r' & Hj & Hbad & Hm & Hpre)%IH.
    exists (S j), r'. rewrite <- Nat.add_succ_comm. split_and!; try done.
    simpl. constructor; [by apply (complaint_None i)|done].
Qed.

(** C8, as amended.  An export of either format first validates the
    records.
    - If some record is not a dictionary or lacks one of the keys id, name,
      students, the export raises [DataExportError]; its message is the
      format's prefix followed by the complaint about the first such
      record, which names the record's index and, for a dictionary, the
      missing field; no I/O action is issued.
    - If every record is a dictionary with the three keys, validation
      passes.  The JSON exporter then creates the parent directory and
      writes the file.  The XML exporter first generates the document and
      writes it only if that succeeds; a failure there is a
      [DataExportError] too, again without any I/O action. *)
Theorem C8_export_validation (data : list value) (output_path : string) :
  (¬ Forall (λ r, export_record_ok r) data →
   ∃ i r m, data !! i = Some r ∧ export_record_ok r = false ∧
     Forall (λ r, export_record_ok r) (take i data) ∧
     complaint i r = Some m ∧
     JSONExporter.export data output_path =
       (Raise (DataExportError ("Failed to export JSON data: " +:+ m) (Some output_path)),
        []) ∧
     XMLExporter.export data output_path =
       (Raise (DataExportError ("Failed to export XML data: " +:+ m) (Some output_path)),
        [])) ∧
  (Forall (λ r, export_record_ok r) data →
   JSONExporter.validate_output_data data = Ok true ∧
   XMLExporter.validate_output_data data = Ok true ∧
   JSONExporter.export data output_path =
     (Ok (), [MkdirParents output_path; DumpJSON output_path data]) ∧
   XMLExporter.export data output_path =
     match XMLExporter._generate_xml data with
     | Ok xml_content =>
         (Ok (), [MkdirParents output_path; WriteText output_path xml_content])
     | Raise e =>
         (Raise (DataExportError ("Failed to export XML data: " +:+ str_exn e)
                                 (Some output_path)), [])
     end).
Proof.
  unfold JSONExporter.export, XMLExporter.export,
    JSONExporter.validate_output_data, XMLExporter.validate_output_data.
  rewrite validate_output_records_spec. split.
  - intros Hbad. destruct (first_complaint 0 data) as [m|] eqn:Hm.
    + destruct (first_complaint_Some _ _ _ Hm) as (i & r & Hi & Hr & Hc & Hpre).
      exists i, r, m. by split_and!.
    + by apply first_complaint_None in Hm.
  - intros Hok%(first_complaint_None 0). rewrite Hok. by split_and!.
Qed.

Lemma C8_export_validation_witness :
  ¬ Forall (λ r, export_record_ok r) nameless_record ∧
  ∃ i r m, nameless_record !! i = Some r ∧ export_record_ok r = false ∧
    Forall (λ r, export_record_ok r) (take i nameless_record) ∧
    complaint i r = Some m ∧
    JSONExporter.export nameless_record "combined.json" =
      (Raise (DataExportError ("Failed to export JSON data: " +:+ m) (Some "combined.json")),
       []) ∧
    XMLExporter.export nameless_record "combined.json" =
      (Raise (DataExportError ("Failed to export XML data: " +:+ m) (Some "combined.json")),
       []).
Proof.
  assert (¬ Forall (λ r, export_record_ok r) nameless_record) as Hbad.
  { intros H. apply Forall_cons in H as [_ H]. apply Forall_cons in H as [H _].
    exact H. }
  split; [exact Hbad|].
  destruct (C8_export_validation nameless_record "combined.json") as [Hraise _].
  exact (Hraise Hbad).
Defined.

(** C8 as stated fails for the XML exporter: the record below has the
    three mandatory keys, validation passes, but [students] is null;
    [for student in ...] raises a [TypeError] while the document is
    generated, and nothing is written. *)
Lemma C8_counterexample :
  Forall (λ r, export_record_ok r) null_students_room ∧
  XMLExporter.validate_output_data null_students_room = Ok true ∧
  XMLExporter.export null_students_room "combined.xml" =
    (Raise (DataExportError
              "Failed to export XML data: 'NoneType' object is not iterable"
              (Some "combined.xml")), []).
Proof. evaluate. Qed.

(** The same happens to the output of a combination whose room name holds
    a control character: [minidom.parseString] rejects the serialised
    tree. *)
Example control_character_name :
  combine_data [] [VDict [("id", VInt 1);
                          ("name", VStr (String "A" (String "001" EmptyString)))]] =
    Ok control_name_room ∧
  XMLExporter.export control_name_room "combined.xml" =
    (Raise (DataExportError
              "Failed to export XML data: not well-formed (invalid token): line 1, column 30"
              (Some "combined.xml")), []).
Proof. split; reflexivity. Qed.

(** ** Escaping *)

Lemma append_assoc (s1 s2 s3 : string) : (s1 +:+ s2) +:+ s3 = s1 +:+ s2 +:+ s3.
Proof.
  induction s1 as [|a s1 IH]; [done|].
  change (String a ((s1 +:+ s2) +:+ s3) = String a (s1 +:+ s2 +:+ s3)).
  by rewrite IH.
Qed.

Lemma replace_app (old : ascii) (new s1 s2 : string) :
  replace old new (s1 +:+ s2) = replace old new s1 +:+ replace old new s2.
Proof.
  induction s1 as [|a s1 IH]; simpl; [done|].
  case_decide; rewrite IH.
  - by rewrite append_assoc.
  - done.
Qed.

Lemma _escape_xml_content_app (s1 s2 : string) :
  XMLExporter._escape_xml_content (s1 +:+ s2) =
  XMLExporter._escape_xml_content s1 +:+ XMLExporter._escape_xml_content s2.
Proof. unfold XMLExporter._escape_xml_content. by rewrite !replace_app. Qed.

Lemma _write_data_app (s1 s2 : string) :
  _write_data (s1 +:+ s2) = _write_data s1 +:+ _write_data s2.
Proof. unfold _write_data. by rewrite !replace_app. Qed.

Lemma replace_other (old a : ascii) (new : string) :
  a ≠ old → replace old new (String a EmptyString) = String a EmptyString.
Proof. intros Hne. simpl. by case_decide. Qed.

Lemma _escape_xml_content_char (a : ascii) :
  XMLExporter._escape_xml_content (String a EmptyString) = escaped_once a.
Proof.
  unfold escaped_once, XMLExporter._escape_xml_content.
  repeat (let H := fresh in case_decide as H; [rewrite H; reflexivity|]).
  by rewrite !replace_other.
Qed.

Lemma _write_data_escaped_once (a : ascii) :
  _write_data (escaped_once a) = escaped_twice a.
Proof.
  unfold escaped_once, escaped_twice, _write_data.
  repeat (case_decide; [reflexivity|]).
  by rewrite !replace_other.
Qed.

Lemma _escape_xml_content_spec (s : string) :
  XMLExporter._escape_xml_content s = flat_map_str escaped_once s.
Proof.
  induction s as [|a s IH]; [done|].
  change (String a s) with (String a EmptyString +:+ s).
  rewrite _escape_xml_content_app, _escape_xml_content_char, IH. done.
Qed.

Lemma _write_data_escape_xml_content (s : string) :
  _write_data (XMLExporter._escape_xml_content s) = flat_map_str escaped_twice s.
Proof.
  induction s as [|a s IH]; [done|].
  change (String a s) with (String a EmptyString +:+ s).
  rewrite _escape_xml_content_app, _write_data_app, _escape_xml_content_char,
    _write_data_escaped_once, IH. done.
Qed.

(** C6 is violated by the code: the name is escaped by
    [_escape_xml_content] and then once more by the XML library when the
    tree is written, so a name "A&B" comes out as [A&amp;amp;B], which
    reads back as "A&amp;B".  In general the text written for a name holds
    [&amp;amp;], [&amp;lt;], [&amp;gt;], [&amp;quot;], [&amp;apos;] for the
    five characters; the library alone would write the name with each
    special character escaped once. *)
Theorem C6_double_escaping :
  XMLExporter._generate_xml ampersand_room =
    Ok (lines [xml_declaration;
               "<rooms>";
               "  <room>";
               "    <id>1</id>";
               "    <name>A&amp;amp;B</name>";
               "    <students/>";
               "  </room>";
               "</rooms>"]) ∧
  XMLExporter._escape_xml_content "A&B" = "A&amp;B" ∧
  xml_unescape "A&amp;amp;B" = "A&amp;B" ∧
  writexml "" (leaf "name" "A&B") = lines ["<name>A&amp;B</name>"] ∧
  xml_unescape "A&amp;B" = "A&B" ∧
  (∀ name, XMLExporter._escape_xml_content name = flat_map_str escaped_once name) ∧
  (∀ name, _write_data (XMLExporter._escape_xml_content name) =
           flat_map_str escaped_twice name).
Proof.
  split_and!; [reflexivity..| |].
  - apply _escape_xml_content_spec.
  - apply _write_data_escape_xml_content.
Qed.

(** * Further properties *)

(** ** White space *)

Lemma has_visible_lstrip (s : string) : has_visible (lstrip s) = has_visible s.
Proof.
  induction s as [|a rest IH]; simpl; [done|].
  destruct (is_space a) eqn:Ha; simpl; [done|]. by rewrite Ha.
Qed.

Lemma rstrip_empty (s : string) : rstrip s = "" ↔ has_visible s = false.
Proof.
  induction s as [|a rest IH]; simpl; [done|].
  destruct (rstrip rest) as [|b rest'] eqn:Hr.
  - destruct IH as [IH _]. rewrite (IH eq_refl), orb_false_r.
    destruct (is_space a); simpl; split; done.
  - split; [done|]. intros [_ H]%orb_false_iff.
    destruct IH as [_ IH]. by specialize (IH H).
Qed.

Lemma strip_empty (s : string) : strip s = "" ↔ has_visible s = false.
Proof. unfold strip. by rewrite rstrip_empty, has_visible_lstrip. Qed.

(** ** Field validators *)

Lemma validate_positive_integer_spec (v : value) (field_name : string) :
  validate_positive_integer v field_name =
  if positive_int v then Ok ()
  else Raise (ValidationError
                (field_name +:+ " must be a positive integer, got: " +:+ str v)).
Proof.
  unfold validate_positive_integer.
  destruct v as [|[]|z| | |]; simpl; try done.
  destruct (Z.leb_spec z 0), (Z.ltb_spec 0 z); (done || lia).
Qed.

Lemma validate_non_empty_string_spec (v : value) (field_name : string) :
  validate_non_empty_string v field_name =
  if non_blank_str v then Ok ()
  else Raise (ValidationError
                (field_name +:+ " must be a non-empty string, got: " +:+ str v)).
Proof.
  unfold validate_non_empty_string.
  destruct v as [| | |s| |]; simpl; try done.
  case_decide as Hs.
  - apply strip_empty in Hs. by rewrite Hs.
  - destruct (has_visible s) eqn:Hv; [done|]. by apply strip_empty in Hv.
Qed.

Lemma has_visible_elem_of (s : string) :
  has_visible s ↔ ∃ a, a ∈ String.list_ascii_of_string s ∧ is_space a = false.
Proof.
  induction s as [|a rest IH]; simpl.
  - split; [done | intros (a & Ha & _); by apply elem_of_nil in Ha].
  - destruct (is_space a) eqn:Ha; simpl.
    + rewrite IH. split; intros (b & Hb & Hsp).
      * exists b. split; [by right | done].
      * apply elem_of_cons in Hb as [-> | Hb]; [congruence | eauto].
    + split; [|done]. intros _. exists a. split; [by left | done].
Qed.

(** X1 (utils/validation.py, validate_positive_integer and
    validate_non_empty_string): the integer check accepts exactly the
    integers above zero and, because a Python bool is an int, the value
    True; the string check accepts exactly the strings that hold a
    character other than white space.  Every other value is rejected with
    a ValidationError that names the field and shows the value. *)
Theorem field_validators (v : value) (field_name : string) :
  (validate_positive_integer v field_name = Ok () ↔
   (∃ z, v = VInt z ∧ (0 < z)%Z) ∨ v = VBool true) ∧
  (validate_non_empty_string v field_name = Ok () ↔
   ∃ s, v = VStr s ∧ ∃ a, a ∈ String.list_ascii_of_string s ∧ is_space a = false) ∧
  (∀ e, validate_positive_integer v field_name = Raise e →
     e = ValidationError (field_name +:+ " must be a positive integer, got: " +:+ str v)) ∧
  (∀ e, validate_non_empty_string v field_name = Raise e →
     e = ValidationError (field_name +:+ " must be a non-empty string, got: " +:+ str v)).
Proof.
  rewrite validate_positive_integer_spec, validate_non_empty_string_spec.
  split_and!.
  - destruct v as [|[]|z| | |]; simpl; split; try done;
      try (intros [(z' & [=] & _)|[=]]; done); try (by right).
    + destruct (Z.ltb_spec 0 z); [|done]. intros _. left. by exists z.
    + intros [(z' & [= <-] & Hz)|[=]]. by destruct (Z.ltb_spec 0 z); [|lia].
  - destruct v as [| | |s| |]; simpl;
      try (split; [done | intros (s' & [=] & _)]).
    split.
    + destruct (has_visible s) eqn:Hv; [|done]. intros _. exists s. split; [done|].
      apply has_visible_elem_of. by rewrite Hv.
    + intros (s' & [= <-] & Ha). apply has_visible_elem_of in Ha.
      by rewrite (Is_true_eq_true _ Ha).
  - intros e. destruct (positive_int v); [done|]. by intros [= <-].
  - intros e. destruct (non_blank_str v); [done|]. by intros [= <-].
Qed.

Lemma field_validators_witness :
  validate_positive_integer (VBool true) "Room ID" = Ok ().
Proof. apply (field_validators (VBool true) "Room ID"). by right. Defined.

(** ** The models *)

Lemma Student_post_init_spec (s : Student.t) :
  Student.__post_init__ s = Ok () ↔
  positive_int (Student.id s) ∧ non_blank_str (Student.name s) ∧
  (Student.room s = VNone ∨ positive_int (Student.room s)).
Proof.
  unfold Student.__post_init__. simpl.
  rewrite !validate_positive_integer_spec, validate_non_empty_string_spec.
  destruct (positive_int (Student.id s)); simpl; [|naive_solver].
  destruct (non_blank_str (Student.name s)); simpl; [|naive_solver].
  destruct (Student.room s) as [|[]|z| | |]; simpl; try naive_solver.
  destruct (0 <? z)%Z; naive_solver.
Qed.

Lemma Student_post_init_Raise (s : Student.t) (e : exn) :
  Student.__post_init__ s = Raise e → ∃ m, e = ValidationError m.
Proof.
  unfold Student.__post_init__. simpl.
  rewrite !validate_positive_integer_spec, validate_non_empty_string_spec.
  destruct (positive_int (Student.id s)); simpl; [|intros [= <-]; eauto].
  destruct (non_blank_str (Student.name s)); simpl; [|intros [= <-]; eauto].
  destruct (is_not_None (Student.room s)); [|done].
  destruct (positive_int (Student.room s)); [done|]. intros [= <-]; eauto.
Qed.

Lemma Student_new_Ok (i n r : value) (s : Student.t) :
  Student.new i n r = Ok s ↔ s = Student.mk i n r ∧ Student.__post_init__ s = Ok ().
Proof.
  unfold Student.new.
  destruct (Student.__post_init__ (Student.mk i n r)) as [[]|e] eqn:H; simpl.
  - split; [by intros [= <-] | by intros [-> _]].
  - split; [done | intros [-> H']; congruence].
Qed.

Lemma Room_post_init_spec (r : Room.t) :
  Room.__post_init__ r = Ok () ↔ positive_int (Room.id r) ∧ non_blank_str (Room.name r).
Proof.
  unfold Room.__post_init__. simpl.
  rewrite validate_positive_integer_spec, validate_non_empty_string_spec.
  destruct (positive_int (Room.id r)); simpl; [|naive_solver].
  destruct (non_blank_str (Room.name r)); naive_solver.
Qed.

Lemma Room_new_Ok (i n : value) (r : Room.t) :
  Room.new i n = Ok r ↔ r = Room.mk i n ∧ Room.__post_init__ r = Ok ().
Proof.
  unfold Room.new.
  destruct (Room.__post_init__ (Room.mk i n)) as [[]|e] eqn:H; simpl.
  - split; [by intros [= <-] | by intros [-> _]].
  - split; [done | intros [-> H']; congruence].
Qed.

(** X2 (models/student.py, Student.from_dict and __post_init__): a record
    yields a Student exactly when its id is a positive integer, its name a
    string that is not blank, and its room reference null, absent, or a
    positive integer.  The Student then holds these three fields (a
    missing room key reads as null); and when the record is refused, the
    error is a ValidationError. *)
Theorem Student_from_dict_spec (d : Dict.t value) :
  (∀ s, Student.from_dict (VDict d) = Ok s ↔
     s = Student.mk (field "id" VNone (VDict d)) (field "name" (VStr "") (VDict d))
                    (field "room" VNone (VDict d)) ∧
     positive_int (Student.id s) ∧ non_blank_str (Student.name s) ∧
     (Student.room s = VNone ∨ positive_int (Student.room s))) ∧
  (∀ e, Student.from_dict (VDict d) = Raise e → ∃ m, e = ValidationError m).
Proof.
  unfold Student.from_dict. simpl. split.
  - intros s. by rewrite Student_new_Ok, Student_post_init_spec.
  - intros e. unfold Student.new.
    destruct (Student.__post_init__ _) as [[]|e'] eqn:H; simpl; [done|].
    intros [= <-]. by eapply Student_post_init_Raise.
Qed.

Lemma Student_from_dict_spec_witness :
  Student.from_dict (VDict [("id", VInt 3); ("name", VStr "Carol")]) =
  Ok (Student.mk (VInt 3) (VStr "Carol") VNone).
Proof.
  apply (proj1 (Student_from_dict_spec [("id", VInt 3); ("name", VStr "Carol")])).
  split_and!; [reflexivity | exact I | exact I | by left].
Defined.

(** X3 (models/student.py, Student.to_dict and from_dict): a Student that
    passes the checks of __post_init__ is read back unchanged from its
    dictionary form. *)
Theorem Student_round_trip (s : Student.t) :
  Student.__post_init__ s = Ok () →
  Student.from_dict (Student.to_dict s) = Ok s.
Proof.
  intros H. unfold Student.from_dict, Student.to_dict. simpl.
  apply Student_new_Ok. by destruct s.
Qed.

Lemma Student_round_trip_witness :
  Student.from_dict (Student.to_dict (Student.mk (VInt 7) (VStr "Alice") VNone)) =
  Ok (Student.mk (VInt 7) (VStr "Alice") VNone).
Proof. apply Student_round_trip. reflexivity. Defined.

(** X4 (models/room.py, Room.from_dict, to_dict and __post_init__): a
    record yields a Room exactly when its id is a positive integer and its
    name a string that is not blank; the Room holds these two fields, and
    a Room that passes the checks of __post_init__ is read back unchanged
    from its dictionary form. *)
Theorem Room_from_dict_spec (d : Dict.t value) (r : Room.t) :
  (Room.from_dict (VDict d) = Ok r ↔
     r = Room.mk (field "id" VNone (VDict d)) (field "name" (VStr "") (VDict d)) ∧
     positive_int (Room.id r) ∧ non_blank_str (Room.name r)) ∧
  (Room.__post_init__ r = Ok () ↔ Room.from_dict (Room.to_dict r) = Ok r).
Proof.
  unfold Room.from_dict, Room.to_dict. simpl. split.
  - by rewrite Room_new_Ok, Room_post_init_spec.
  - rewrite Room_new_Ok. destruct r; naive_solver.
Qed.

Lemma Room_from_dict_spec_witness :
  Room.from_dict (VDict [("id", VInt 1); ("name", VStr "101")]) =
  Ok (Room.mk (VInt 1) (VStr "101")).
Proof.
  apply (proj1 (Room_from_dict_spec [("id", VInt 1); ("name", VStr "101")]
                  (Room.mk (VInt 1) (VStr "101")))).
  split_and!; [reflexivity | exact I | exact I].
Defined.

Lemma positive_int_scalar (v : value) : positive_int v → scalar v.
Proof. by destruct v. Qed.

(** X5 (services/room_student_service.py, combine_data, on the
    dictionaries of models/student.py and models/room.py): on the
    dictionary forms of Students and Rooms that pass their __post_init__
    checks, the combination never fails on the shape or the type of a
    field.  It reports duplicate room ids, else duplicate student ids,
    and otherwise returns one record per room, in order, followed by the
    record of the unassigned students if there are any. *)
Theorem combine_data_of_models (ss : list Student.t) (rs : list Room.t) :
  Forall (λ s, Student.__post_init__ s = Ok ()) ss →
  Forall (λ r, Room.__post_init__ r = Ok ()) rs →
  combine_data (Student.to_dict <$> ss) (Room.to_dict <$> rs) =
  if has_duplicates (ids_of (Room.to_dict <$> rs)) then
    Raise (ValidationError "Duplicate room IDs found")
  else if has_duplicates (ids_of (Student.to_dict <$> ss)) then
    Raise (ValidationError "Duplicate student IDs found")
  else Ok (combine_spec (Student.to_dict <$> ss) (Room.to_dict <$> rs)).
Proof.
  intros HS HR.
  assert (Forall (λ r, record_ok r) (Student.to_dict <$> ss)) as HokS.
  { apply Forall_fmap, Forall_true. done. }
  assert (Forall (λ r, record_ok r) (Room.to_dict <$> rs)) as HokR.
  { apply Forall_fmap, Forall_true. done. }
  assert (Forall (λ s, scalar (field "id" VNone s)) (Student.to_dict <$> ss)) as HidS.
  { apply Forall_fmap. eapply Forall_impl; [exact HS|]. simpl.
    intros s (Hi & _)%Student_post_init_spec. by apply positive_int_scalar. }
  assert (Forall (λ s, scalar (field "room" VNone s)) (Student.to_dict <$> ss)) as HrefS.
  { apply Forall_fmap. eapply Forall_impl; [exact HS|]. simpl.
    intros s (_ & _ & [-> | Hr])%Student_post_init_spec; [done|].
    by apply positive_int_scalar. }
  assert (Forall (λ r, scalar (field "id" VNone r)) (Room.to_dict <$> rs)) as HidR.
  { apply Forall_fmap. eapply Forall_impl; [exact HR|]. simpl.
    intros r (Hi & _)%Room_post_init_spec. by apply positive_int_scalar. }
  pose proof (validate_input_data_spec _ _ HokS HokR) as Hv.
  assert (first_unhashable (ids_of (Room.to_dict <$> rs)) = None) as HuR.
  { apply first_unhashable_None. by apply scalar_ids_of. }
  assert (first_unhashable (ids_of (Student.to_dict <$> ss)) = None) as HuS.
  { apply first_unhashable_None. by apply scalar_ids_of. }
  rewrite HuR in Hv.
  destruct (has_duplicates (ids_of (Room.to_dict <$> rs))) eqn:HdR.
  { unfold combine_data. by rewrite Hv. }
  rewrite HuS in Hv.
  destruct (has_duplicates (ids_of (Student.to_dict <$> ss))) eqn:HdS.
  { unfold combine_data. by rewrite Hv. }
  by apply combine_data_correct.
Qed.

Lemma combine_data_of_models_witness :
  combine_data
    (Student.to_dict <$> [Student.mk (VInt 1) (VStr "Alice") (VInt 1);
                          Student.mk (VInt 2) (VStr "Bob") VNone])
    (Room.to_dict <$> [Room.mk (VInt 1) (VStr "101")]) =
  Ok [VDict [("id", VInt 1); ("name", VStr "101");
             ("students", VList [VDict [("id", VInt 1); ("name", VStr "Alice")]])];
      VDict [("id", VNone); ("name", VStr "Unassigned Students");
             ("students", VList [VDict [("id", VInt 2); ("name", VStr "Bob")]])]].
Proof.
  apply (combine_data_of_models
           [Student.mk (VInt 1) (VStr "Alice") (VInt 1);
            Student.mk (VInt 2) (VStr "Bob") VNone]
           [Room.mk (VInt 1) (VStr "101")]).
  - repeat constructor.
  - repeat constructor.
Defined.

(** ** Adding students to a combined room *)

(** X6 (models/combined_room.py, add_student, get_student_count and
    to_dict): students added one by one end up after the ones the room
    had, in the order of the calls, each as a dictionary with the keys id
    and name; the count grows by the number of calls, and the id and the
    name of the room stay as they were. *)
Theorem add_student_appends (room : CombinedRoom.t) (added : list (value * value)) :
  let room' := foldl (λ r p, CombinedRoom.add_student r p.1 p.2) room added in
  CombinedRoom.get_student_count room' =
    CombinedRoom.get_student_count room + length added ∧
  CombinedRoom.to_dict room' =
    VDict [("id", CombinedRoom.id room); ("name", CombinedRoom.name room);
           ("students",
            VList (CombinedRoom.students room ++
                   ((λ p, VDict [("id", p.1); ("name", p.2)]) <$> added)))].
Proof.
  simpl. revert room.
  induction added as [|p added IH]; intros room; simpl.
  - rewrite app_nil_r. split; [lia | done].
  - destruct (IH (CombinedRoom.add_student room p.1 p.2)) as [Hn Hd].
    rewrite Hn, Hd. unfold CombinedRoom.get_student_count. simpl.
    rewrite length_app. simpl. split; [lia|]. by rewrite <- app_assoc.
Qed.

(** ** The registries of the factories *)

Lemma lower_ascii_idemp (a : ascii) : lower_ascii (lower_ascii a) = lower_ascii a.
Proof.
  unfold lower_ascii.
  destruct ((65 <=? nat_of_ascii a) && (nat_of_ascii a <=? 90)) eqn:H.
  - apply andb_true_iff in H as [H1%Nat.leb_le H2%Nat.leb_le].
    rewrite nat_ascii_embedding by lia.
    destruct (Nat.leb_spec (nat_of_ascii a + 32) 90); [lia|].
    by rewrite andb_false_r.
  - by rewrite H.
Qed.

Lemma lower_idemp (s : string) : lower (lower s) = lower s.
Proof.
  induction s as [|a rest IH]; simpl; [done|]. by rewrite lower_ascii_idemp, IH.
Qed.

Lemma Dict_get_keys {V} (k : string) (d : Dict.t V) :
  is_Some (Dict.get k d) ↔ k ∈ Dict.keys d.
Proof.
  unfold Dict.keys. induction d as [|[k' v] d IH]; simpl.
  - split; [by intros [? [=]] | by intros ?%elem_of_nil].
  - rewrite elem_of_cons. case_decide as Hk; [naive_solver|].
    rewrite IH. naive_solver.
Qed.

Lemma Dict_keys_set {V} (k : string) (v : V) (d : Dict.t V) :
  Dict.keys (Dict.set k v d) =
  if decide (k ∈ Dict.keys d) then Dict.keys d else Dict.keys d ++ [k].
Proof.
  unfold Dict.keys. induction d as [|[k' v'] d IH].
  - by rewrite decide_False by apply not_elem_of_nil.
  - change (Dict.set k v ((k', v') :: d))
      with (if decide (k = k') then (k', v) :: d else (k', v') :: Dict.set k v d).
    destruct (decide (k = k')) as [->|Hne].
    + rewrite decide_True; [done | rewrite fmap_cons; by left].
    + rewrite !fmap_cons, IH. simpl. destruct (decide (k ∈ d.*1)) as [Hin|Hin].
      * rewrite decide_True by (by right). done.
      * rewrite decide_False; [done|]. rewrite elem_of_cons. naive_solver.
Qed.

Lemma create_exporter_Ok (registry : Dict.t exporter_class) (format_name : string)
    (cls : exporter_class) :
  DataExporterFactory.create_exporter registry format_name = Ok cls ↔
  Dict.get (lower format_name) registry = Some cls.
Proof.
  unfold DataExporterFactory.create_exporter.
  destruct (Dict.get (lower format_name) registry); naive_solver.
Qed.

Lemma create_loader_Ok (registry : Dict.t loader_class) (format_name : string)
    (cls : loader_class) :
  DataLoaderFactory.create_loader registry format_name = Ok cls ↔
  Dict.get (lower format_name) registry = Some cls.
Proof.
  unfold DataLoaderFactory.create_loader.
  destruct (Dict.get (lower format_name) registry); naive_solver.
Qed.

(** X7 (data/exporters/exporter_factory.py, register_exporter and
    create_exporter): after a class has been registered under a name, the
    factory returns it for that name in any capitalisation; for every name
    that differs from it by more than capitalisation the factory returns
    what it returned before. *)
Theorem register_exporter_lookup (registry : Dict.t exporter_class)
    (format_name other : string) (cls : exporter_class) :
  (lower other = lower format_name →
   DataExporterFactory.create_exporter
     (DataExporterFactory.register_exporter registry format_name cls) other = Ok cls) ∧
  (lower other ≠ lower format_name →
   ∀ c, DataExporterFactory.create_exporter
          (DataExporterFactory.register_exporter registry format_name cls) other = Ok c ↔
        DataExporterFactory.create_exporter registry other = Ok c).
Proof.
  unfold DataExporterFactory.register_exporter. split.
  - intros Heq. apply create_exporter_Ok. rewrite Dict_get_set, Heq. by case_decide.
  - intros Hne c. rewrite !create_exporter_Ok, Dict_get_set. by case_decide.
Qed.

Lemma register_exporter_lookup_witness :
  DataExporterFactory.create_exporter
    (DataExporterFactory.register_exporter DataExporterFactory._exporters
       "YAML" JSONExporter_class) "Yaml" = Ok JSONExporter_class.
Proof.
  apply (proj1 (register_exporter_lookup DataExporterFactory._exporters "YAML" "Yaml"
                  JSONExporter_class)).
  reflexivity.
Defined.

(** X8 (data/exporters/exporter_factory.py, register_exporter and
    get_supported_formats): registering a format that is already listed
    leaves the list of supported formats as it was; a new format is added
    at its end, in lower case.  A list without repetitions stays so. *)
Theorem register_exporter_formats (registry : Dict.t exporter_class)
    (format_name : string) (cls : exporter_class) :
  let registry' := DataExporterFactory.register_exporter registry format_name cls in
  DataExporterFactory.get_supported_formats registry' =
    (if decide (lower format_name ∈ DataExporterFactory.get_supported_formats registry)
     then DataExporterFactory.get_supported_formats registry
     else DataExporterFactory.get_supported_formats registry ++ [lower format_name]) ∧
  (NoDup (DataExporterFactory.get_supported_formats registry) →
   NoDup (DataExporterFactory.get_supported_formats registry')).
Proof.
  simpl. unfold DataExporterFactory.get_supported_formats,
    DataExporterFactory.register_exporter.
  rewrite Dict_keys_set. split; [done|].
  intros Hnd. case_decide as Hin; [done|].
  apply NoDup_app. split_and!; [done | | apply NoDup_singleton].
  intros k Hk ->%list_elem_of_singleton. done.
Qed.

Lemma register_exporter_formats_witness :
  NoDup (DataExporterFactory.get_supported_formats
           (DataExporterFactory.register_exporter DataExporterFactory._exporters
              "YAML" JSONExporter_class)).
Proof.
  apply (proj2 (register_exporter_formats DataExporterFactory._exporters "YAML"
                  JSONExporter_class)).
  apply (bool_decide_unpack _). vm_compute. exact I.
Defined.

Lemma reachable_exporters_lower (registry : Dict.t exporter_class) :
  reachable_exporters registry →
  Forall (λ k, lower k = k) (Dict.keys registry) ∧ NoDup (Dict.keys registry) ∧
  "json" ∈ Dict.keys registry ∧ "xml" ∈ Dict.keys registry.
Proof.
  induction 1 as [|registry format_name cls _ (IH1 & IH2 & IH3 & IH4)].
  - split_and!; [by repeat constructor | | set_solver | set_solver].
    apply (bool_decide_unpack _). by vm_compute.
  - unfold DataExporterFactory.register_exporter. rewrite Dict_keys_set.
    case_decide as Hin; [done|]. split_and!.
    + apply Forall_app. split; [done|]. constructor; [apply lower_idemp | constructor].
    + apply NoDup_app. split_and!; [done | | apply NoDup_singleton].
      intros k Hk ->%list_elem_of_singleton. done.
    + apply elem_of_app. by left.
    + apply elem_of_app. by left.
Qed.

(** X9 (data/exporters/exporter_factory.py, create_exporter,
    get_supported_formats, register_exporter and _exporters): the factory
    creates an exporter exactly for the names whose lower-case form is
    listed as supported.  In every registry the program can reach, from
    the initial one by registrations, each listed format can itself be
    created, no format is listed twice, and json and xml stay supported. *)
Theorem supported_formats_can_be_created (registry : Dict.t exporter_class) :
  (∀ format_name,
     (∃ cls, DataExporterFactory.create_exporter registry format_name = Ok cls) ↔
     lower format_name ∈ DataExporterFactory.get_supported_formats registry) ∧
  (reachable_exporters registry →
   (∀ format_name,
      format_name ∈ DataExporterFactory.get_supported_formats registry →
      ∃ cls, DataExporterFactory.create_exporter registry format_name = Ok cls) ∧
   NoDup (DataExporterFactory.get_supported_formats registry) ∧
   (∃ cls, DataExporterFactory.create_exporter registry "json" = Ok cls) ∧
   (∃ cls, DataExporterFactory.create_exporter registry "xml" = Ok cls)).
Proof.
  assert (∀ format_name,
     (∃ cls, DataExporterFactory.create_exporter registry format_name = Ok cls) ↔
     lower format_name ∈ DataExporterFactory.get_supported_formats registry) as Hiff.
  { intros format_name. unfold DataExporterFactory.get_supported_formats.
    rewrite <- Dict_get_keys. unfold is_Some.
    by setoid_rewrite create_exporter_Ok. }
  split; [done|].
  intros (Hlow & Hnd & Hj & Hx)%reachable_exporters_lower. split_and!.
  - intros format_name Hin. apply Hiff.
    rewrite Forall_forall in Hlow. by rewrite (Hlow _ Hin).
  - done.
  - by apply Hiff.
  - by apply Hiff.
Qed.

Lemma supported_formats_can_be_created_witness :
  reachable_exporters
    (DataExporterFactory.register_exporter DataExporterFactory._exporters
       "YAML" JSONExporter_class) ∧
  ∃ cls, DataExporterFactory.create_exporter
           (DataExporterFactory.register_exporter DataExporterFactory._exporters
              "YAML" JSONExporter_class) "yaml" = Ok cls.
Proof.
  assert (reachable_exporters
            (DataExporterFactory.register_exporter DataExporterFactory._exporters
               "YAML" JSONExporter_class)) as Hreach.
  { apply reachable_register, reachable_initial. }
  split; [exact Hreach|].
  destruct (proj2 (supported_formats_can_be_created _) Hreach) as (Hcreate & _).
  apply Hcreate. vm_compute. repeat constructor.
Defined.

(** X10 (data/loaders/loader_factory.py, create_loader, register_loader
    and get_supported_formats): the loader factory looks a format up
    without regard to capitalisation.  It returns a loader exactly for the
    names whose lower-case form is listed, returns the class registered
    last under a name, and otherwise raises UnsupportedFormatError with
    the name as it was given and the list of supported formats. *)
Theorem create_loader_spec (registry : Dict.t loader_class) (format_name : string) :
  ((∃ cls, DataLoaderFactory.create_loader registry format_name = Ok cls) ↔
   lower format_name ∈ DataLoaderFactory.get_supported_formats registry) ∧
  (lower format_name ∉ DataLoaderFactory.get_supported_formats registry →
   DataLoaderFactory.create_loader registry format_name =
     Raise (UnsupportedFormatError format_name
              (DataLoaderFactory.get_supported_formats registry))) ∧
  (∀ other cls, lower other = lower format_name →
     DataLoaderFactory.create_loader
       (DataLoaderFactory.register_loader registry format_name cls) other = Ok cls).
Proof.
  unfold DataLoaderFactory.get_supported_formats. split_and!.
  - rewrite <- Dict_get_keys. unfold is_Some. by setoid_rewrite create_loader_Ok.
  - rewrite <- Dict_get_keys. unfold DataLoaderFactory.create_loader.
    destruct (Dict.get (lower format_name) registry); [|done].
    intros []. by eexists.
  - intros other cls Heq. apply create_loader_Ok.
    unfold DataLoaderFactory.register_loader. rewrite Dict_get_set, Heq. by case_decide.
Qed.

Lemma create_loader_spec_witness :
  DataLoaderFactory.create_loader DataLoaderFactory._loaders "XML" =
  Raise (UnsupportedFormatError "XML" ["json"]).
Proof.
  destruct (create_loader_spec DataLoaderFactory._loaders "XML") as (_ & Hunknown & _).
  apply Hunknown. apply (bool_decide_unpack _). vm_compute. exact I.
Defined.

(** ** The JSON loader *)

Lemma validate_records_Raise (label : string) (i : nat) (l : list value) (e : exn) :
  validate_records label i l = Raise e → ∃ m, e = ValidationError m.
Proof.
  revert i. induction l as [|r l IH]; intros i; simpl; [done|].
  repeat (case_match; [intros [= <-]; eauto|]). apply IH.
Qed.

Lemma validate_students_json_Ok (data : value) :
  validate_students_json data = Ok () ↔
  ∃ l, data = VList l ∧ Forall (λ r, record_ok r) l.
Proof.
  destruct data as [| | | |l|]; simpl; try (split; [done | by intros (? & [=] & _)]).
  unfold validate_students_data. rewrite validate_records_Ok. naive_solver.
Qed.

Lemma validate_rooms_json_Ok (data : value) :
  validate_rooms_json data = Ok () ↔
  ∃ l, data = VList l ∧ Forall (λ r, record_ok r) l.
Proof.
  destruct data as [| | | |l|]; simpl; try (split; [done | by intros (? & [=] & _)]).
  unfold validate_rooms_data. rewrite validate_records_Ok. naive_solver.
Qed.

Lemma validate_students_json_Raise (data : value) (e : exn) :
  validate_students_json data = Raise e → ∃ m, e = ValidationError m.
Proof.
  destruct data; simpl; try (intros [= <-]; eauto).
  apply validate_records_Raise.
Qed.

Lemma validate_rooms_json_Raise (data : value) (e : exn) :
  validate_rooms_json data = Raise e → ∃ m, e = ValidationError m.
Proof.
  destruct data; simpl; try (intros [= <-]; eauto).
  apply validate_records_Raise.
Qed.

(** What [load] comes to, for a check [validate] that raises nothing but
    [ValidationError] and that [validate_data_format] selects. *)
Lemma load_cases (Label data_type : string) (validate : value → result ())
    (fs : file_system) (file_path : string) :
  (∀ data e, validate data = Raise e → ∃ m, e = ValidationError m) →
  (∀ data, validate data = Ok () → ∃ l, data = VList l) →
  (∀ data, JSONDataLoader.validate_data_format data data_type =
           try_except (validate data;; Ok true)
             (λ e, match e with
                   | ValidationError _ => e
                   | _ => ValidationError ("Data validation failed: " +:+ str_exn e)
                   end)) →
  (∀ l, JSONDataLoader.load Label data_type fs file_path = Ok l ↔
        has_visible file_path ∧ fs file_path = Some (JSONDocument (VList l)) ∧
        validate (VList l) = Ok ()) ∧
  (∀ e, JSONDataLoader.load Label data_type fs file_path = Raise e ↔
        load_failure Label data_type validate fs file_path e).
Proof.
  intros Hraise Hok Hfmt.
  unfold JSONDataLoader.load, load_failure, validate_file_path.
  destruct (decide (strip file_path = "")) as [Hs|Hs].
  { apply strip_empty in Hs. rewrite Hs. simpl. split.
    - intros l. split; [done | by intros ([] & _)].
    - intros e. split; [by intros [= <-] | by intros ->]. }
  assert (has_visible file_path = true) as ->.
  { destruct (has_visible file_path) eqn:Hv; [done|]. by apply strip_empty in Hv. }
  simpl. destruct (fs file_path) as [[data|message]|]; simpl.
  - rewrite Hfmt. destruct (validate data) as [[]|e'] eqn:Hval; simpl.
    + destruct (Hok _ Hval) as [l ->]. split.
      * intros l'. split; [intros [= <-]; done | intros (_ & [= <-] & _); done].
      * intros e. split; [done | intros (m & [=] & _)].
    + destruct (Hraise _ _ Hval) as [m ->]. simpl. split.
      * intros l. split; [done | intros (_ & [= ->] & Hl); congruence].
      * intros e. split; [intros [= <-]; eauto | intros (m' & [= <-] & ->); done].
  - split.
    + intros l. split; [done | by intros (_ & [=] & _)].
    + intros e. split; [by intros [= <-] | by intros ->].
  - split.
    + intros l. split; [done | by intros (_ & [=] & _)].
    + intros e. split; [by intros [= <-] | by intros ->].
Qed.

Lemma load_students_cases (fs : file_system) (file_path : string) :
  (∀ l, JSONDataLoader.load_students fs file_path = Ok l ↔
        has_visible file_path ∧ fs file_path = Some (JSONDocument (VList l)) ∧
        validate_students_json (VList l) = Ok ()) ∧
  (∀ e, JSONDataLoader.load_students fs file_path = Raise e ↔
        load_failure "Students" "students" validate_students_json fs file_path e).
Proof.
  apply load_cases.
  - apply validate_students_json_Raise.
  - intros data (l & -> & _)%validate_students_json_Ok. eauto.
  - done.
Qed.

Lemma load_rooms_cases (fs : file_system) (file_path : string) :
  (∀ l, JSONDataLoader.load_rooms fs file_path = Ok l ↔
        has_visible file_path ∧ fs file_path = Some (JSONDocument (VList l)) ∧
        validate_rooms_json (VList l) = Ok ()) ∧
  (∀ e, JSONDataLoader.load_rooms fs file_path = Raise e ↔
        load_failure "Rooms" "rooms" validate_rooms_json fs file_path e).
Proof.
  apply load_cases.
  - apply validate_rooms_json_Raise.
  - intros data (l & -> & _)%validate_rooms_json_Ok. eauto.
  - done.
Qed.

(** X11 (data/loaders/json_loader.py, load_students, load_rooms and
    validate_data_format): a load returns a list exactly when the path is
    not blank, the file exists and holds a JSON array, and every element
    of the array is a dictionary with the keys id and name; what it
    returns is that array, unchanged. *)
Theorem load_returns_the_array (fs : file_system) (file_path : string)
    (records : list value) :
  (JSONDataLoader.load_students fs file_path = Ok records ↔
   has_visible file_path ∧ fs file_path = Some (JSONDocument (VList records)) ∧
   Forall (λ r, record_ok r) records) ∧
  (JSONDataLoader.load_rooms fs file_path = Ok records ↔
   has_visible file_path ∧ fs file_path = Some (JSONDocument (VList records)) ∧
   Forall (λ r, record_ok r) records).
Proof.
  split.
  - rewrite (proj1 (load_students_cases fs file_path)), validate_students_json_Ok.
    naive_solver.
  - rewrite (proj1 (load_rooms_cases fs file_path)), validate_rooms_json_Ok.
    naive_solver.
Qed.

Lemma load_returns_the_array_witness :
  JSONDataLoader.load_students sample_files "students.json" = Ok sample_students.
Proof.
  apply (proj1 (load_returns_the_array sample_files "students.json" sample_students)).
  split_and!; [exact I | reflexivity | evaluate].
Defined.

(** X12 (data/loaders/json_loader.py, load_students and load_rooms;
    utils/validation.py, validate_file_path): the ways a load fails.  A
    blank path is refused with a ValidationError, before the file system is
    looked at.  Every other failure is a DataLoadError that carries the
    path: for a missing file the not-found error is caught by the loader's
    own handler and wrapped once more, for a text that is not JSON the
    parser's message is kept, and for a document of the wrong shape the
    message of the validation is. *)
Theorem load_failures (fs : file_system) (file_path : string) (e : exn) :
  (JSONDataLoader.load_students fs file_path = Raise e ↔
   load_failure "Students" "students" validate_students_json fs file_path e) ∧
  (JSONDataLoader.load_rooms fs file_path = Raise e ↔
   load_failure "Rooms" "rooms" validate_rooms_json fs file_path e) ∧
  (has_visible file_path → fs file_path = None →
   JSONDataLoader.load_students fs file_path =
     Raise (DataLoadError
              ("Failed to load students data: Students file not found: " +:+ file_path)
              (Some file_path))) ∧
  (load_failure "Students" "students" validate_students_json fs file_path e →
   has_visible file_path → ∃ m, e = DataLoadError m (Some file_path)).
Proof.
  split_and!.
  - apply load_students_cases.
  - apply load_rooms_cases.
  - intros Hv Hfs. apply load_students_cases. unfold load_failure.
    rewrite (Is_true_eq_true _ Hv), Hfs. done.
  - unfold load_failure. intros H Hv. rewrite (Is_true_eq_true _ Hv) in H.
    destruct (fs file_path) as [[data|message]|]; [|eauto..].
    destruct H as (m & _ & ->). eauto.
Qed.

Lemma load_failures_witness :
  JSONDataLoader.load_students sample_files "missing.json" =
  Raise (DataLoadError
           "Failed to load students data: Students file not found: missing.json"
           (Some "missing.json")).
Proof.
  destruct (load_failures sample_files "missing.json" (ValidationError ""))
    as (_ & _ & Hmissing & _).
  apply Hmissing; [exact I | reflexivity].
Defined.

(** ** The controller *)

Lemma _load_input_data_Raise (loaders : Dict.t loader_class) (fs : file_system)
    (args : ParsedArguments) (e : exn) :
  CLIController._load_input_data loaders fs args = Raise e →
  ∃ m, e = DataLoadError m None.
Proof.
  unfold CLIController._load_input_data, try_except.
  case_match; [done|]. intros [= <-]. case_match; eauto.
Qed.




Lemma _load_input_data_Ok (fs : file_system) (args : ParsedArguments)
    (students rooms : list value) :
  CLIController._load_input_data DataLoaderFactory._loaders fs args =
    Ok (students, rooms) ↔
  JSONDataLoader.load_students fs (students_file args) = Ok students ∧
  JSONDataLoader.load_rooms fs (rooms_file args) = Ok rooms.
Proof.
  unfold CLIController._load_input_data. simpl.
  destruct (JSONDataLoader.load_students fs (students_file args)) as [S|e]; simpl;
    [|naive_solver].
  destruct (JSONDataLoader.load_rooms fs (rooms_file args)) as [R|e]; simpl;
    naive_solver.
Qed.

(** X13 (cli/cli_controller.py, _load_input_data and _handle_error, over
    data/loaders): with the loaders of the program, both files are
    loaded or the load fails, the students file first.  Whatever goes
    wrong, the error that leaves _load_input_data is a DataLoadError
    without a path, so that _handle_error prints one line and never the
    line that names the file.  A missing students file is reported with
    three prefixes, a blank path as an unexpected error. *)
Theorem load_input_data_spec (fs : file_system) (args : ParsedArguments) :
  (∀ students rooms,
     CLIController._load_input_data DataLoaderFactory._loaders fs args =
       Ok (students, rooms) ↔
     JSONDataLoader.load_students fs (students_file args) = Ok students ∧
     JSONDataLoader.load_rooms fs (rooms_file args) = Ok rooms) ∧
  (∀ loaders e,
     CLIController._load_input_data loaders fs args = Raise e →
     ∃ m, e = DataLoadError m None ∧
          CLIController._handle_error e = ["❌ Error: " +:+ m]) ∧
  (has_visible (students_file args) → fs (students_file args) = None →
   CLIController._load_input_data DataLoaderFactory._loaders fs args =
     Raise (DataLoadError
              ("Failed to load input data: Failed to load students data: "
               +:+ "Students file not found: " +:+ students_file args) None)) ∧
  (has_visible (students_file args) = false →
   CLIController._load_input_data DataLoaderFactory._loaders fs args =
     Raise (DataLoadError
              "Unexpected error during data loading: File path must be a non-empty string"
              None)).
Proof.
  split_and!.
  - intros students rooms. apply _load_input_data_Ok.
  - intros loaders e He. apply _load_input_data_Raise in He as [m ->]. eauto.
  - intros Hv Hfs. unfold CLIController._load_input_data. simpl.
    assert (JSONDataLoader.load_students fs (students_file args) =
            Raise (DataLoadError
                     ("Failed to load students data: Students file not found: "
                      +:+ students_file args) (Some (students_file args)))) as ->.
    { apply load_students_cases. unfold load_failure.
      by rewrite (Is_true_eq_true _ Hv), Hfs. }
    done.
  - intros Hv. unfold CLIController._load_input_data. simpl.
    assert (JSONDataLoader.load_students fs (students_file args) =
            Raise (ValidationError "File path must be a non-empty string")) as ->.
    { apply load_students_cases. unfold load_failure. by rewrite Hv. }
    done.
Qed.

Lemma load_input_data_spec_witness :
  CLIController._load_input_data DataLoaderFactory._loaders sample_files
    (mkParsedArguments "missing.json" "rooms.json" "combined.json" "json" false false) =
  Raise (DataLoadError
           ("Failed to load input data: Failed to load students data: "
            +:+ "Students file not found: missing.json") None).
Proof.
  destruct (load_input_data_spec sample_files
              (mkParsedArguments "missing.json" "rooms.json" "combined.json" "json"
                 false false)) as (_ & _ & Hmissing & _).
  apply Hmissing; [exact I | reflexivity].
Defined.







(** ** From the combination to the exporters *)










(** ** Characters the XML parser rejects *)
























(** ** Escaping, read back *)

Lemma contains_app (c : ascii) (s1 s2 : string) :
  contains c (s1 +:+ s2) = contains c s1 || contains c s2.
Proof.
  induction s1 as [|a s1 IH]; [done|].
  change (String a s1 +:+ s2) with (String a (s1 +:+ s2)). simpl.
  by rewrite IH, orb_assoc.
Qed.

Lemma contains_flat_map_str (c : ascii) (f : ascii → string) (s : string) :
  (∀ a, contains c (f a) = false) → contains c (flat_map_str f s) = false.
Proof.
  intros Hf. induction s as [|a rest IH]; simpl; [done|].
  by rewrite contains_app, Hf, IH.
Qed.

Lemma contains_escaped_once (c a : ascii) :
  c ∈ ["<"%char; ">"%char; dquote; squote] → contains c (escaped_once a) = false.
Proof.
  intros Hc. unfold escaped_once.
  repeat case_decide; subst;
    repeat (apply elem_of_cons in Hc as [-> | Hc]; [try done|]);
    try (by apply elem_of_nil in Hc);
    simpl; rewrite orb_false_r; by apply bool_decide_eq_false.
Qed.

Lemma prefix_empty (s : string) : String.prefix "" s = true.
Proof. by destruct s. Qed.

Lemma xml_unescape_escaped_once (a : ascii) (rest : string) :
  xml_unescape (escaped_once a +:+ rest) = String a (xml_unescape rest).
Proof.
  unfold escaped_once, xml_unescape.
  repeat case_decide; subst;
    try (simpl; unfold entity_at; simpl; by rewrite prefix_empty).
  simpl. by case_decide.
Qed.

(** X21 (data/exporters/xml_exporter.py, _escape_xml_content): the
    escaped text holds none of the characters <, >, double quote and
    single quote, and a reader that resolves the five predefined entities
    gets the original text back from it, whatever the text is. *)
Theorem escape_xml_content_sound (content : string) :
  (∀ c, c ∈ ["<"%char; ">"%char; dquote; squote] →
        contains c (XMLExporter._escape_xml_content content) = false) ∧
  xml_unescape (XMLExporter._escape_xml_content content) = content.
Proof.
  rewrite _escape_xml_content_spec. split.
  - intros c Hc. apply contains_flat_map_str. intros a. by apply contains_escaped_once.
  - induction content as [|a rest IH]; [done|].
    cbn [flat_map_str]. by rewrite xml_unescape_escaped_once, IH.
Qed.

Lemma escape_xml_content_sound_witness :
  contains "<"%char (XMLExporter._escape_xml_content "a<b") = false.
Proof.
  apply (escape_xml_content_sound "a<b"). by left.
Defined.

(** ** The validation of the inputs, and the combination as a whole *)

Lemma input_complaint_None (label : string) (i : nat) (record : value) :
  input_complaint label i record = None ↔ record_ok record.
Proof.
  unfold input_complaint, record_ok.
  destruct (is_dict record), (has_key "id" record), (has_key "name" record); done.
Qed.

Lemma validate_records_cons (label : string) (i : nat) (r : value) (l : list value) :
  validate_records label i (r :: l) =
  match input_complaint label i r with
  | Some m => Raise (ValidationError m)
  | None => validate_records label (S i) l
  end.
Proof.
  unfold input_complaint. simpl.
  destruct (is_dict r), (has_key "id" r), (has_key "name" r); done.
Qed.

Lemma validate_records_Raise_iff (label : string) (i : nat) (l : list value) (e : exn) :
  validate_records label i l = Raise e ↔
  ∃ j r m, l !! j = Some r ∧ Forall (λ r, record_ok r) (take j l) ∧
           input_complaint label (i + j) r = Some m ∧ e = ValidationError m.
Proof.
  revert i. induction l as [|r l IH]; intros i.
  - split; [done | intros (j & r & m & Hj & _); by destruct j].
  - rewrite validate_records_cons.
    destruct (input_complaint label i r) as [m|] eqn:Hc.
    + split.
      * intros [= <-]. exists 0, r, m. rewrite Nat.add_0_r. by repeat constructor.
      * intros ([|j] & r' & m' & Hj & Hpre & Hc' & ->).
        -- rewrite Nat.add_0_r in Hc'. simpl in Hj. congruence.
        -- simpl in Hpre. apply Forall_cons in Hpre as [Hr _].
           apply (input_complaint_None label i) in Hr. congruence.
    + rewrite IH. split.
      * intros (j & r' & m & Hj & Hpre & Hc' & ->).
        exists (S j), r', m. rewrite Nat.add_succ_r. simpl. split_and!; try done.
        constructor; [|done]. by apply (input_complaint_None label i).
      * intros ([|j] & r' & m & Hj & Hpre & Hc' & ->).
        -- rewrite Nat.add_0_r in Hc'. simpl in Hj. congruence.
        -- exists j, r', m. rewrite Nat.add_succ_r in Hc'. simpl in Hpre.
           apply Forall_cons in Hpre as [_ Hpre]. done.
Qed.

(** X22 (utils/validation.py, validate_students_data and
    validate_rooms_data; services/room_student_service.py,
    validate_input_data and combine_data): a structural check fails
    exactly when some record is not a dictionary with the keys id and
    name, and its ValidationError then names the collection, the index of
    the first such record and what that record lacks (dictionary, then
    id, then name).  combine_data passes this error on unchanged, and it
    checks the students before the rooms. *)
Theorem validation_reports_first_offender (students rooms : list value) (e : exn) :
  (validate_students_data students = Raise e ↔
   ∃ i r m, students !! i = Some r ∧ Forall (λ r, record_ok r) (take i students) ∧
            input_complaint "Student" i r = Some m ∧ e = ValidationError m) ∧
  (validate_rooms_data rooms = Raise e ↔
   ∃ i r m, rooms !! i = Some r ∧ Forall (λ r, record_ok r) (take i rooms) ∧
            input_complaint "Room" i r = Some m ∧ e = ValidationError m) ∧
  (validate_students_data students = Raise e → combine_data students rooms = Raise e) ∧
  (validate_students_data students = Ok () → validate_rooms_data rooms = Raise e →
   combine_data students rooms = Raise e).
Proof.
  split_and!.
  - apply (validate_records_Raise_iff "Student" 0).
  - apply (validate_records_Raise_iff "Room" 0).
  - intros H. destruct (validate_records_Raise _ _ _ _ H) as [m ->].
    unfold combine_data, validate_input_data. by rewrite H.
  - intros HS H. destruct (validate_records_Raise _ _ _ _ H) as [m ->].
    unfold combine_data, validate_input_data. by rewrite HS, H.
Qed.

Lemma validation_reports_first_offender_witness :
  combine_data [room_record 1 "Alice"; VDict [("id", VInt 2)]] [VNone] =
  Raise (ValidationError "Student at index 1 missing required 'name' field").
Proof.
  destruct (validation_reports_first_offender
              [room_record 1 "Alice"; VDict [("id", VInt 2)]] [VNone]
              (ValidationError "Student at index 1 missing required 'name' field"))
    as (_ & _ & Hstudents & _).
  apply Hstudents. reflexivity.
Defined.


